(** * BYD Vehicle integration: climate, sensor and switch entities

    A shallow embedding of [custom_components/byd_vehicle/climate.py],
    [sensor.py] and [switch.py].  Python dictionaries are finite maps
    ([gmap]); where Python iterates over a dictionary the model iterates over
    [map_to_list], so the order of the produced entity lists is the map's
    order, not Python's insertion order (no statement below depends on
    order).  Python statements with effects (attribute assignment, the remote
    call, [async_write_ha_state]) are written in a state-and-exception monad
    whose state is the entity together with the objects it shares with the
    rest of the integration (coordinators and API client).  The world [w]
    given to the setup functions stands for [hass.data[DOMAIN][entry_id]]
    with its coordinators and API wrapper; the list a setup function returns
    is the list it hands to [async_add_entities].  [device_info] and the
    class-level [_attr_*] constants play no part in the statements and are
    left out. *)

From Stdlib Require Import ZArith QArith String Ascii.
From stdpp Require Import gmap strings list fin_maps.

(* ===================================================================== *)
(** ** Python values, objects and exceptions *)
(* ===================================================================== *)

(** The values that travel through the entities.  A Python float is given
    by the rational it denotes (infinities and NaN are not represented):
    floats are compared with the sentinel [-129], handed on, and produced
    from an integer by [float_of_int] below. *)
#[warnings="-register-all"]
Inductive PyVal :=
  | PyNone
  | PyBool (b : bool)
  | PyInt (z : Z)
  | PyFloat (q : Q)
  | PyStr (s : string)
  | PyDict (items : list (string * PyVal)).

(** Python truthiness, as used by [if last_result:] and [if raw:]. *)
Definition truthy (v : PyVal) : bool :=
  match v with
  | PyNone => false
  | PyBool b => b
  | PyInt z => negb (z =? 0)%Z
  | PyFloat q => negb (Qeq_bool q 0)
  | PyStr s => negb (String.eqb s "")
  | PyDict items => match items with [] => false | _ => true end
  end.

(** [v != n] for an integer literal [n]. *)
Definition py_ne_int (v : PyVal) (n : Z) : bool :=
  match v with
  | PyInt z => negb (z =? n)%Z
  | PyFloat q => negb (Qeq_bool q (inject_Z n))
  | PyBool b => negb ((if b then 1 else 0) =? n)%Z
  | _ => true
  end.

(** [x is not None] *)
Definition is_not_None (v : PyVal) : bool :=
  match v with PyNone => false | _ => true end.

(** [float(n)] for a Python integer: the nearest double, ties to the even
    mantissa of 53 bits; nothing when the rounded value is beyond the largest
    double, where Python raises [OverflowError].  [e] is the number of low
    bits that do not fit the mantissa, [q] the kept bits, [rem] the dropped
    ones. *)
Definition float_of_int (n : Z) : option Q :=
  let a := Z.abs n in
  let e := Z.max 0 (Z.log2 a - 52) in
  let q := Z.shiftr a e in
  let rem := Z.land a (Z.ones e) in
  let half := Z.shiftl 1 (e - 1) in
  let up :=
    if (0 <? e)%Z && ((half <? rem)%Z || ((rem =? half)%Z && Z.odd q))
    then 1%Z else 0%Z in
  let r := Z.shiftl (q + up) e in
  if (Z.shiftl 1 1024 <=? r)%Z then None
  else Some (inject_Z (Z.sgn n * r)).

(** [pybyd.models.hvac.HvacStatus]: the attributes the climate entity
    reads.  [is_ac_on] and [interior_temp_available] are properties of the
    library class; they are fields here. *)
Record HvacStatus := {
  is_ac_on : bool;
  interior_temp_available : bool;
  temp_in_car : option Q;
  main_setting_temp_new : option Q;
  main_setting_temp : option Z;
  temp_out_car : PyVal;
  front_defrost_status : PyVal;
  steering_wheel_heat_state : PyVal;
  main_seat_heat_state : PyVal;
  main_seat_ventilation_state : PyVal;
  copilot_seat_heat_state : PyVal;
  copilot_seat_ventilation_state : PyVal
}.

(** What a snapshot mapping can hold under a VIN: [None], an [HvacStatus],
    or any other object, given by its attributes. *)
Inductive PyObj :=
  | ObjNone
  | ObjHvac (h : HvacStatus)
  | ObjData (attrs : gmap string PyVal).

Definition option_float (o : option Q) : PyVal :=
  match o with Some q => PyFloat q | None => PyNone end.

(** [isinstance(o, HvacStatus)] folded into the selection of the object. *)
Definition as_HvacStatus (o : option PyObj) : option HvacStatus :=
  match o with Some (ObjHvac h) => Some h | _ => None end.

(** [getattr(o, "temp_in_car", None)] *)
Definition getattr_temp_in_car (o : PyObj) : PyVal :=
  match o with
  | ObjNone => PyNone
  | ObjHvac h => option_float (temp_in_car h)
  | ObjData attrs => default PyNone (attrs !! "temp_in_car")
  end.

(** [o is not None] for a looked-up object ([dict.get] gives [None] for a
    missing key). *)
Definition obj_is_not_None (o : option PyObj) : bool :=
  match o with Some ObjNone | None => false | Some _ => true end.

(** Exceptions.  [exc_is_Exception] tells whether the class derives from
    [Exception]; [asyncio.CancelledError], [KeyboardInterrupt] and
    [SystemExit] derive from [BaseException] only.  [exc_msg] is [str(exc)];
    [exc_cause] is [__cause__], set by [raise ... from]. *)
#[warnings="-register-all"]
Inductive PyExc := MkExc {
  exc_class : string;
  exc_is_Exception : bool;
  exc_msg : string;
  exc_cause : option PyExc
}.

Definition HomeAssistantError (msg : string) (cause : option PyExc) : PyExc :=
  MkExc "HomeAssistantError" true msg cause.

Definition AttributeError (msg : string) : PyExc :=
  MkExc "AttributeError" true msg None.

Definition OverflowError (msg : string) : PyExc :=
  MkExc "OverflowError" true msg None.

Definition CancelledError : PyExc :=
  MkExc "CancelledError" false "" None.

Inductive Outcome (A : Type) :=
  | Return (a : A)
  | Raise (e : PyExc).
Arguments Return {A} a.
Arguments Raise {A} e.

(** [float(n)] as an expression that may raise. *)
Definition py_float (n : Z) : Outcome PyVal :=
  match float_of_int n with
  | Some q => Return (PyFloat q)
  | None => Raise (OverflowError "int too large to convert to float")
  end.

(* ===================================================================== *)
(** ** The state-and-exception monad *)
(* ===================================================================== *)

Definition M (St A : Type) : Type := St -> Outcome A * St.

#[global] Instance M_ret {St} : MRet (M St) :=
  fun A (a : A) s => (Return a, s).

#[global] Instance M_bind {St} : MBind (M St) :=
  fun A B (k : A -> M St B) (m : M St A) s =>
    match m s with
    | (Return a, s') => k a s'
    | (Raise e, s') => (Raise e, s')
    end.

Definition raise {St A} (e : PyExc) : M St A := fun s => (Raise e, s).

Definition get_state {St} : M St St := fun s => (Return s, s).

Definition modify {St} (f : St -> St) : M St unit := fun s => (Return tt, f s).

(** [try: body except Exception as exc: handler exc].  An exception that
    does not derive from [Exception] passes through the clause. *)
Definition try_except_Exception {St A}
    (body : M St A) (handler : PyExc -> M St A) : M St A :=
  fun s =>
    match body s with
    | (Return a, s') => (Return a, s')
    | (Raise e, s') =>
        if exc_is_Exception e then handler e s' else (Raise e, s')
    end.

(* ===================================================================== *)
(** ** External collaborators *)
(* ===================================================================== *)

(** The pybyd client: [getattr(client, name, None)] gives a method or
    nothing; a method takes the VIN. *)
Record Client := {
  client_getattr : string -> option (string -> Outcome PyVal)
}.

(** [client.name(vin)] by plain attribute access. *)
Definition client_call (client : Client) (name vin : string) : Outcome PyVal :=
  match client_getattr client name with
  | Some method => method vin
  | None => Raise (AttributeError name)
  end.

(** [coordinator.BydApi]: the API wrapper the command entities hold.
    [async_call] runs a callback against the client and may change the
    wrapper's state; [get_last_remote_result] is the lookup by VIN and
    command. *)
Class BydApi (Api : Type) := {
  async_call :
    Api -> (Client -> Outcome PyVal) -> string -> string -> Outcome PyVal * Api;
  get_last_remote_result : Api -> string -> string -> PyVal
}.

(** The helper functions of [coordinator.py] used by the entities. *)
Class CoordinatorHelpers := {
  expand_metrics : PyObj -> gmap string PyVal;
  extract_raw : PyObj -> PyVal;
  get_vehicle_display : PyObj -> string
}.

(** [coordinator.data]: category name to (VIN to status object). *)
Abbreviation Snapshot := (gmap string (gmap string PyObj)).

(** [d.get(key, {})] *)
Definition data_get (d : Snapshot) (key : string) : gmap string PyObj :=
  default ∅ (d !! key).

(** Which coordinator an entity was constructed with. *)
Inductive CoordRef := MainCoordinator | GpsCoordinator.

(** The objects shared by all entities of a config entry, with the two
    observation logs used to state what a method did: the remote calls made
    through the API wrapper and the calls of [async_write_ha_state]. *)
Record World (Api : Type) := {
  coordinator_data : Snapshot;
  gps_coordinator_data : Snapshot;
  api : Api;
  api_calls : list (string * string);
  ha_state_writes : list string
}.
Arguments coordinator_data {Api} w.
Arguments gps_coordinator_data {Api} w.
Arguments api {Api} w.
Arguments api_calls {Api} w.
Arguments ha_state_writes {Api} w.

Definition data_of {Api} (w : World Api) (c : CoordRef) : Snapshot :=
  match c with
  | MainCoordinator => coordinator_data w
  | GpsCoordinator => gps_coordinator_data w
  end.

(** [s.replace("_", " ")] *)
Fixpoint replace_underscores (s : string) : string :=
  match s with
  | EmptyString => EmptyString
  | String c s' =>
      String (if Ascii.eqb c "_"%char then " "%char else c)
             (replace_underscores s')
  end.

(** The state a method of an entity of class [Self] runs in. *)
Definition St (Api Self : Type) : Type := (Self * World Api)%type.

Section Entities.
Context {Api : Type} {api_ops : BydApi Api} {helpers : CoordinatorHelpers}.

Definition get_self {Self} : M (St Api Self) Self := fun s => (Return (fst s), s).
Definition get_world {Self} : M (St Api Self) (World Api) :=
  fun s => (Return (snd s), s).
Definition set_self {Self} (f : Self -> Self) : M (St Api Self) unit :=
  modify (fun s => (f (fst s), snd s)).

(** [await self._api.async_call(call, vin=vin, command=command)] *)
Definition api_async_call {Self}
    (call : Client -> Outcome PyVal) (vin command : string)
  : M (St Api Self) PyVal :=
  fun s =>
    let w := snd s in
    let '(out, a') := async_call (api w) call vin command in
    (out, (fst s,
           {| coordinator_data := coordinator_data w;
              gps_coordinator_data := gps_coordinator_data w;
              api := a';
              api_calls := api_calls w ++ [(vin, command)];
              ha_state_writes := ha_state_writes w |})).

(** [self.async_write_ha_state()], recorded under the entity's unique id. *)
Definition async_write_ha_state {Self} (uid : Self -> string)
  : M (St Api Self) unit :=
  modify (fun s =>
    let w := snd s in
    (fst s,
     {| coordinator_data := coordinator_data w;
        gps_coordinator_data := gps_coordinator_data w;
        api := api w;
        api_calls := api_calls w;
        ha_state_writes := ha_state_writes w ++ [uid (fst s)] |})).

End Entities.

(* ===================================================================== *)
(** ** climate.py *)
(* ===================================================================== *)

(** [homeassistant.components.climate.const.HVACMode] *)
Inductive HVACMode := OFF | HEAT | COOL | HEAT_COOL | AUTO | DRY | FAN_ONLY.

Definition HVACMode_is_OFF (m : HVACMode) : bool :=
  match m with OFF => true | _ => false end.

Module climate.
Module BydClimate.

Record t := {
  coordinator : CoordRef;
  _vin : string;
  _vehicle : PyObj;
  _attr_unique_id : string;
  _attr_name : string;
  _last_mode : HVACMode;
  _last_command : option string
}.

Definition set_last_command (cmd : option string) (c : t) : t :=
  {| coordinator := coordinator c; _vin := _vin c; _vehicle := _vehicle c;
     _attr_unique_id := _attr_unique_id c; _attr_name := _attr_name c;
     _last_mode := _last_mode c; _last_command := cmd |}.

Definition set_last_mode (m : HVACMode) (c : t) : t :=
  {| coordinator := coordinator c; _vin := _vin c; _vehicle := _vehicle c;
     _attr_unique_id := _attr_unique_id c; _attr_name := _attr_name c;
     _last_mode := m; _last_command := _last_command c |}.

Section Methods.
Context {Api : Type} {api_ops : BydApi Api} {helpers : CoordinatorHelpers}.

Definition __init__ (coord : CoordRef) (vin : string) (vehicle : PyObj)
  : t :=
  {| coordinator := coord;
     _vin := vin;
     _vehicle := vehicle;
     _attr_unique_id := vin +:+ "_climate";
     _attr_name := get_vehicle_display vehicle +:+ " climate";
     _last_mode := OFF;
     _last_command := None |}.

Definition _get_hvac_status : M (St Api t) (option HvacStatus) :=
  self ← get_self;
  w ← get_world;
  let hvac_map := data_get (data_of w (coordinator self)) "hvac" in
  let hvac := hvac_map !! _vin self in
  mret (as_HvacStatus hvac).

Definition hvac_mode : M (St Api t) HVACMode :=
  hvac ← _get_hvac_status;
  match hvac with
  | Some h => mret (if is_ac_on h then HEAT_COOL else OFF)
  | None => self ← get_self; mret (_last_mode self)
  end.

Definition assumed_state : M (St Api t) bool :=
  hvac ← _get_hvac_status;
  mret (match hvac with None => true | Some _ => false end).

(** The part of [current_temperature] after the first [return]. *)
Definition realtime_temperature : M (St Api t) PyVal :=
  self ← get_self;
  w ← get_world;
  let realtime_map := data_get (data_of w (coordinator self)) "realtime" in
  let realtime := realtime_map !! _vin self in
  match realtime with
  | Some o =>
      if obj_is_not_None realtime then
        let temp := getattr_temp_in_car o in
        if is_not_None temp && py_ne_int temp (-129) then mret temp
        else mret PyNone
      else mret PyNone
  | None => mret PyNone
  end.

Definition current_temperature : M (St Api t) PyVal :=
  hvac ← _get_hvac_status;
  match hvac with
  | Some h =>
      if interior_temp_available h then mret (option_float (temp_in_car h))
      else realtime_temperature
  | None => realtime_temperature
  end.

(** [float(hvac.main_setting_temp)] is [py_float]: it rounds the integer
    setting to a double and raises [OverflowError] when it is too large;
    the property has no handler, so the exception leaves it. *)
Definition target_temperature : M (St Api t) PyVal :=
  hvac ← _get_hvac_status;
  match hvac with
  | Some h =>
      match main_setting_temp_new h with
      | Some t => mret (PyFloat t)
      | None =>
          match main_setting_temp h with
          | Some n =>
              match py_float n with
              | Return v => mret v
              | Raise exc => raise exc
              end
          | None => mret PyNone
          end
      end
  | None => mret PyNone
  end.

(** ["stop_climate" if hvac_mode == HVACMode.OFF else "start_climate"] *)
Definition command_of (hvac_mode : HVACMode) : string :=
  if HVACMode_is_OFF hvac_mode then "stop_climate" else "start_climate".

(** The callback handed to the API wrapper. *)
Definition _call (self : t) (hvac_mode : HVACMode) (client : Client)
  : Outcome PyVal :=
  if HVACMode_is_OFF hvac_mode then client_call client "stop_climate" (_vin self)
  else client_call client "start_climate" (_vin self).

(** [command] is the name just stored in [_last_command]; the wrapper
    receives it as [command=self._last_command]. *)
Definition async_set_hvac_mode (hvac_mode : HVACMode)
  : M (St Api t) unit :=
  try_except_Exception
    (let command := command_of hvac_mode in
     set_self (set_last_command (Some command));;
     self ← get_self;
     api_async_call (_call self hvac_mode) (_vin self) command;;
     mret tt)
    (λ exc, raise (HomeAssistantError (exc_msg exc) (Some exc)));;
  set_self (set_last_mode hvac_mode);;
  async_write_ha_state _attr_unique_id.

Definition extra_state_attributes : M (St Api t) (gmap string PyVal) :=
  self ← get_self;
  w ← get_world;
  let attrs : gmap string PyVal := {[ "vin" := PyStr (_vin self) ]} in
  hvac ← _get_hvac_status;
  let attrs :=
    match hvac with
    | Some h =>
        <[ "copilot_seat_ventilation" := copilot_seat_ventilation_state h ]>
        (<[ "copilot_seat_heat" := copilot_seat_heat_state h ]>
        (<[ "main_seat_ventilation" := main_seat_ventilation_state h ]>
        (<[ "main_seat_heat" := main_seat_heat_state h ]>
        (<[ "steering_wheel_heat" := steering_wheel_heat_state h ]>
        (<[ "front_defrost" := front_defrost_status h ]>
        (<[ "temp_out_car" := temp_out_car h ]> attrs))))))
    | None => attrs
    end in
  match _last_command self with
  | Some command =>
      if negb (String.eqb command "") then
        let attrs := <[ "last_remote_command" := PyStr command ]> attrs in
        let last_result := get_last_remote_result (api w) (_vin self) command in
        if truthy last_result
        then mret (<[ "last_remote_result" := last_result ]> attrs)
        else mret attrs
      else mret attrs
  | None => mret attrs
  end.

End Methods.
End BydClimate.

Section Setup.
Context {Api : Type} {api_ops : BydApi Api} {helpers : CoordinatorHelpers}.

(** [async_setup_entry]: the list handed to [async_add_entities]. *)
Definition async_setup_entry (w : World Api) : list BydClimate.t :=
  let vehicle_map := data_get (coordinator_data w) "vehicles" in
  '(vin, vehicle) ← map_to_list vehicle_map;
  [BydClimate.__init__ MainCoordinator vin vehicle].

End Setup.
End climate.

(* ===================================================================== *)
(** ** switch.py *)
(* ===================================================================== *)

Module switch.
Module BydMomentarySwitch.

Record t := {
  coordinator : CoordRef;
  _vin : string;
  _vehicle : PyObj;
  _command : string;
  _attr_unique_id : string;
  _attr_name : string
}.

Section Methods.
Context {Api : Type} {api_ops : BydApi Api} {helpers : CoordinatorHelpers}.

Definition __init__ (coord : CoordRef) (vin : string) (vehicle : PyObj)
    (command : string) : t :=
  {| coordinator := coord;
     _vin := vin;
     _vehicle := vehicle;
     _command := command;
     _attr_unique_id := vin +:+ "_" +:+ command;
     _attr_name :=
       replace_underscores (get_vehicle_display vehicle +:+ " " +:+ command) |}.

Definition is_on : M (St Api t) bool := mret false.

(** The callback handed to the API wrapper. *)
Definition _call (self : t) (client : Client) : Outcome PyVal :=
  match client_getattr client (_command self) with
  | None =>
      Raise (HomeAssistantError ("Unknown command: " +:+ _command self) None)
  | Some method => method (_vin self)
  end.

Definition async_turn_on : M (St Api t) unit :=
  try_except_Exception
    (self ← get_self;
     api_async_call (_call self) (_vin self) (_command self);;
     mret tt)
    (λ exc, raise (HomeAssistantError (exc_msg exc) (Some exc)));;
  async_write_ha_state _attr_unique_id.

Definition async_turn_off : M (St Api t) unit :=
  async_write_ha_state _attr_unique_id.

Definition extra_state_attributes
  : M (St Api t) (gmap string PyVal) :=
  self ← get_self;
  w ← get_world;
  let attrs : gmap string PyVal :=
    <[ "command" := PyStr (_command self) ]> {[ "vin" := PyStr (_vin self) ]} in
  let last_result :=
    get_last_remote_result (api w) (_vin self) (_command self) in
  if truthy last_result
  then mret (<[ "last_remote_result" := last_result ]> attrs)
  else mret attrs.

End Methods.
End BydMomentarySwitch.

Section Setup.
Context {Api : Type} {api_ops : BydApi Api} {helpers : CoordinatorHelpers}.

(** [async_setup_entry]: the list handed to [async_add_entities]. *)
Definition async_setup_entry (w : World Api) : list BydMomentarySwitch.t :=
  let vehicle_map := data_get (coordinator_data w) "vehicles" in
  '(vin, vehicle) ← map_to_list vehicle_map;
  [ BydMomentarySwitch.__init__ MainCoordinator vin vehicle "flash_lights";
    BydMomentarySwitch.__init__ MainCoordinator vin vehicle "honk_horn";
    BydMomentarySwitch.__init__ MainCoordinator vin vehicle "open_trunk";
    BydMomentarySwitch.__init__ MainCoordinator vin vehicle "close_windows" ].

End Setup.
End switch.

(* ===================================================================== *)
(** ** sensor.py *)
(* ===================================================================== *)

(** Constants of [homeassistant.const]. *)
Definition PERCENTAGE : string := "%".
Definition KILOMETERS : string := "km".
Definition KILOMETERS_PER_HOUR : string := "km/h".
Definition CELSIUS : string := String "194" (String "176" "C").
Definition BAR : string := "bar".

Inductive SensorDeviceClass := BATTERY | DISTANCE | SPEED | TEMPERATURE | PRESSURE.
Inductive SensorStateClass := MEASUREMENT.

(** [hint in field] on strings: [hint] occurs as a contiguous substring. *)
Fixpoint str_contains (hint field : string) : bool :=
  String.prefix hint field ||
  match field with
  | EmptyString => false
  | String _ rest => str_contains hint rest
  end.

Module sensor.

(** A dictionary literal iterated with [.items()]: the order of the entries
    is the order of the literal. *)
Definition _UNIT_HINTS : list (string * string) :=
  [ ("percent", PERCENTAGE);
    ("mileage", "km");
    ("endurance", "km");
    ("speed", "km/h");
    ("temp", "C");
    ("pressure", "bar");
    ("direction", "deg") ].

Record BydSensorDescription := mkDesc {
  key : string;
  name : string;
  source_key : string;
  category : string;
  unit : option string;
  device_class : option SensorDeviceClass;
  state_class : option SensorStateClass
}.

Definition EXPLICIT_SENSORS : list BydSensorDescription :=
  [
    mkDesc "elec_percent" "Battery" "realtime" "realtime"
      (Some PERCENTAGE) (Some BATTERY) (Some MEASUREMENT);
    mkDesc "endurance_mileage" "Range" "realtime" "realtime"
      (Some KILOMETERS) (Some DISTANCE) (Some MEASUREMENT);
    mkDesc "total_mileage" "Odometer" "realtime" "realtime"
      (Some KILOMETERS) (Some DISTANCE) (Some MEASUREMENT);
    mkDesc "speed" "Speed" "realtime" "realtime"
      (Some KILOMETERS_PER_HOUR) (Some SPEED) (Some MEASUREMENT);
    mkDesc "temp_in_car" "Cabin temperature" "realtime" "realtime"
      (Some CELSIUS) (Some TEMPERATURE) (Some MEASUREMENT);
    mkDesc "left_front_tire_pressure" "Left front tire pressure" "realtime" "realtime"
      (Some BAR) (Some PRESSURE) (Some MEASUREMENT);
    mkDesc "right_front_tire_pressure" "Right front tire pressure" "realtime" "realtime"
      (Some BAR) (Some PRESSURE) (Some MEASUREMENT);
    mkDesc "left_rear_tire_pressure" "Left rear tire pressure" "realtime" "realtime"
      (Some BAR) (Some PRESSURE) (Some MEASUREMENT);
    mkDesc "right_rear_tire_pressure" "Right rear tire pressure" "realtime" "realtime"
      (Some BAR) (Some PRESSURE) (Some MEASUREMENT);
    mkDesc "total_energy" "Total energy" "energy" "energy"
      (None) (None) (None);
    mkDesc "avg_energy_consumption" "Average energy consumption" "energy" "energy"
      (None) (None) (None);
    mkDesc "electricity_consumption" "Electricity consumption" "energy" "energy"
      (None) (None) (None);
    mkDesc "fuel_consumption" "Fuel consumption" "energy" "energy"
      (None) (None) (None);
    mkDesc "soc" "Charging SOC" "charging" "charging"
      (Some PERCENTAGE) (Some BATTERY) (Some MEASUREMENT);
    mkDesc "charging_state" "Charging state" "charging" "charging"
      (None) (None) (None);
    mkDesc "connect_state" "Charger connection" "charging" "charging"
      (None) (None) (None);
    mkDesc "ac_switch" "AC switch" "hvac" "hvac"
      (None) (None) (None);
    mkDesc "temp_out_car" "Exterior temperature" "hvac" "hvac"
      (Some CELSIUS) (Some TEMPERATURE) (Some MEASUREMENT)
  ].

(** [{desc.key for desc in EXPLICIT_SENSORS if desc.source_key == src}] *)
Definition explicit_keys (src : string) : gset string :=
  list_to_set
    (key <$> filter (λ desc, source_key desc = src) EXPLICIT_SENSORS).

Definition EXPLICIT_FIELDS_BY_SOURCE : gmap string (gset string) :=
  <[ "vehicle" := ∅ ]>
  (<[ "charging" := explicit_keys "charging" ]>
  (<[ "hvac" := explicit_keys "hvac" ]>
  (<[ "energy" := explicit_keys "energy" ]>
  {[ "realtime" := explicit_keys "realtime" ]}))).

Section Helpers.
Context {helpers : CoordinatorHelpers}.

(** [expand_metrics(source.get(vin)) if source.get(vin) is not None else {}] *)
Definition metrics_of (source : gmap string PyObj) (vin : string)
  : gmap string PyVal :=
  match source !! vin with
  | Some o => if obj_is_not_None (Some o) then expand_metrics o else ∅
  | None => ∅
  end.

(** [extract_raw(source.get(vin)) if source.get(vin) is not None else None] *)
Definition raw_of (source : gmap string PyObj) (vin : string) : PyVal :=
  match source !! vin with
  | Some o => if obj_is_not_None (Some o) then extract_raw o else PyNone
  | None => PyNone
  end.

(** [data.get("vehicles", {})] for the source key ["vehicle"], else
    [data.get(source_key, {})]. *)
Definition source_of (data : Snapshot) (src : string) : gmap string PyObj :=
  if decide (src = "vehicle") then data_get data "vehicles"
  else data_get data src.

End Helpers.

Module BydTelemetrySensor.

Record t := {
  coordinator : CoordRef;
  _vin : string;
  _vehicle : PyObj;
  entity_description : BydSensorDescription;
  _attr_unique_id : string;
  _attr_name : string;
  _attr_native_unit_of_measurement : option string;
  _attr_device_class : option SensorDeviceClass;
  _attr_state_class : option SensorStateClass
}.

Section Methods.
Context {Api : Type} {api_ops : BydApi Api} {helpers : CoordinatorHelpers}.

Definition __init__ (coord : CoordRef) (vin : string)
    (vehicle : PyObj) (description : BydSensorDescription) : t :=
  {| coordinator := coord;
     _vin := vin;
     _vehicle := vehicle;
     entity_description := description;
     _attr_unique_id :=
       vin +:+ "_" +:+ source_key description +:+ "_" +:+ key description;
     _attr_name :=
       replace_underscores
         (get_vehicle_display vehicle +:+ " " +:+ name description);
     _attr_native_unit_of_measurement := unit description;
     _attr_device_class := device_class description;
     _attr_state_class := state_class description |}.

Definition native_value : M (St Api t) PyVal :=
  self ← get_self;
  w ← get_world;
  let data := data_of w (coordinator self) in
  let source := source_of data (source_key (entity_description self)) in
  let metrics := metrics_of source (_vin self) in
  mret (default PyNone (metrics !! key (entity_description self))).

Definition extra_state_attributes : M (St Api t) (gmap string PyVal) :=
  self ← get_self;
  let attrs : gmap string PyVal :=
    <[ "field" := PyStr (key (entity_description self)) ]>
    (<[ "category" := PyStr (category (entity_description self)) ]>
    {[ "vin" := PyStr (_vin self) ]}) in
  mret attrs.

End Methods.
End BydTelemetrySensor.

Module BydMetricSensor.

Record t := {
  coordinator : CoordRef;
  _vin : string;
  _vehicle : PyObj;
  _category : string;
  _field : string;
  _source_key : string;
  _attr_unique_id : string;
  _attr_name : string
}.

Section Methods.
Context {Api : Type} {api_ops : BydApi Api} {helpers : CoordinatorHelpers}.

Definition __init__ (coord : CoordRef) (vin : string)
    (vehicle : PyObj) (category field source_key : string) : t :=
  {| coordinator := coord;
     _vin := vin;
     _vehicle := vehicle;
     _category := category;
     _field := field;
     _source_key := source_key;
     _attr_unique_id := vin +:+ "_" +:+ category +:+ "_" +:+ field;
     _attr_name :=
       replace_underscores
         (get_vehicle_display vehicle +:+ " " +:+ category +:+ " " +:+ field) |}.

Definition native_value : M (St Api t) PyVal :=
  self ← get_self;
  w ← get_world;
  let data := data_of w (coordinator self) in
  let source := source_of data (_source_key self) in
  let metrics := metrics_of source (_vin self) in
  mret (default PyNone (metrics !! _field self)).

(** The loop over [_UNIT_HINTS.items()] with its early [return]. *)
Fixpoint unit_of_hints (hints : list (string * string)) (field : string)
  : option string :=
  match hints with
  | [] => None
  | (hint, unit) :: rest =>
      if str_contains hint field then Some unit else unit_of_hints rest field
  end.

Definition native_unit_of_measurement : M (St Api t) (option string) :=
  self ← get_self;
  mret (unit_of_hints _UNIT_HINTS (_field self)).

Definition extra_state_attributes : M (St Api t) (gmap string PyVal) :=
  self ← get_self;
  w ← get_world;
  let data := data_of w (coordinator self) in
  let source := source_of data (_source_key self) in
  let raw := raw_of source (_vin self) in
  let attrs : gmap string PyVal :=
    <[ "field" := PyStr (_field self) ]>
    (<[ "category" := PyStr (_category self) ]>
    {[ "vin" := PyStr (_vin self) ]}) in
  if truthy raw then mret (<[ "raw" := raw ]> attrs) else mret attrs.

End Methods.
End BydMetricSensor.

Inductive SensorEntity :=
  | Telemetry (s : BydTelemetrySensor.t)
  | Metric (s : BydMetricSensor.t).

Section Setup.
Context {Api : Type} {api_ops : BydApi Api} {helpers : CoordinatorHelpers}.

(** [coordinator if source_key != "gps" else gps_coordinator] *)
Definition active_coordinator (src : string) : CoordRef :=
  if decide (src ≠ "gps") then MainCoordinator else GpsCoordinator.

(** The tuple of (category, source_key, source) of the second loop. *)
Definition metric_sources (w : World Api) (vehicle_map : gmap string PyObj)
  : list (string * string * gmap string PyObj) :=
  [ ("vehicle", "vehicle", vehicle_map);
    ("realtime", "realtime", data_get (coordinator_data w) "realtime");
    ("energy", "energy", data_get (coordinator_data w) "energy");
    ("hvac", "hvac", data_get (coordinator_data w) "hvac");
    ("charging", "charging", data_get (coordinator_data w) "charging") ].

(** The explicit sensors of one vehicle (first inner loop). *)
Definition explicit_entities (vin : string) (vehicle : PyObj)
  : list SensorEntity :=
  description ← EXPLICIT_SENSORS;
  [Telemetry (BydTelemetrySensor.__init__
                (active_coordinator (source_key description))
                vin vehicle description)].

(** The discovered sensors of one vehicle and one source (innermost loop). *)
Definition metric_entities (vin : string) (vehicle : PyObj)
    (category source_key : string) (source : gmap string PyObj)
  : list SensorEntity :=
  let metrics := metrics_of source vin in
  field ← (map_to_list metrics).*1;
  if decide (field ∈ default ∅ (EXPLICIT_FIELDS_BY_SOURCE !! source_key))
  then []
  else [Metric (BydMetricSensor.__init__ (active_coordinator source_key)
                  vin vehicle category field source_key)].

(** [async_setup_entry]: the list handed to [async_add_entities]. *)
Definition async_setup_entry (w : World Api) : list SensorEntity :=
  let vehicle_map := data_get (coordinator_data w) "vehicles" in
  '(vin, vehicle) ← map_to_list vehicle_map;
  explicit_entities vin vehicle ++
  ('(category, source_key, source) ← metric_sources w vehicle_map;
   metric_entities vin vehicle category source_key source).

End Setup.
End sensor.

(* ===================================================================== *)
(** ** Reference collaborators *)
(* ===================================================================== *)

(** Modelled from the spec: [coordinator.BydApi] is not part of the three
    modules above.  The specification describes it as "an API client that
    issues remote commands and records per-command results" with "a
    last-result lookup by (VIN, command)".  This instance runs the callback
    once against its client and records the value of a successful command. *)
Record RecordingApi := {
  api_client : Client;
  last_remote_results : gmap (string * string) PyVal
}.

Definition recording_api : BydApi RecordingApi :=
  {| async_call a call vin command :=
       match call (api_client a) with
       | Return v =>
           (Return v,
            {| api_client := api_client a;
               last_remote_results :=
                 <[ (vin, command) := v ]> (last_remote_results a) |})
       | Raise e => (Raise e, a)
       end;
     get_last_remote_result a vin command :=
       default PyNone (last_remote_results a !! (vin, command)) |}.

(** Modelled from the spec: [coordinator.expand_metrics], [extract_raw] and
    [get_vehicle_display] are not part of the three modules above.  The
    specification describes [expand_metrics] as discovery "via reflection
    over the status object's fields"; the carried display name is the
    vehicle's [name] attribute and the raw payload its [raw] attribute. *)
Definition hvac_fields (h : HvacStatus) : gmap string PyVal :=
  <[ "temp_in_car" := option_float (temp_in_car h) ]>
  (<[ "temp_out_car" := temp_out_car h ]>
  {[ "ac_switch" := PyBool (is_ac_on h) ]}).

Definition reflective_helpers : CoordinatorHelpers :=
  {| expand_metrics o :=
       match o with
       | ObjNone => ∅
       | ObjHvac h => hvac_fields h
       | ObjData attrs => delete "raw" attrs
       end;
     extract_raw o :=
       match o with
       | ObjData attrs => default PyNone (attrs !! "raw")
       | _ => PyNone
       end;
     get_vehicle_display o :=
       match o with
       | ObjData attrs =>
           match attrs !! "name" with Some (PyStr s) => s | _ => "BYD" end
       | _ => "BYD"
       end |}.

(** A client on which every command succeeds with result [v]. *)
Definition ok_client (v : PyVal) : Client :=
  {| client_getattr name := Some (λ vin, Return v) |}.

(** A client on which every command fails with [e]. *)
Definition failing_client (e : PyExc) : Client :=
  {| client_getattr name := Some (λ vin, Raise e) |}.

Definition world0 (c : Client) (data : Snapshot) : World RecordingApi :=
  {| coordinator_data := data;
     gps_coordinator_data := ∅;
     api := {| api_client := c; last_remote_results := ∅ |};
     api_calls := [];
     ha_state_writes := [] |}.

(* ===================================================================== *)
(** ** Vocabulary of the statements *)
(* ===================================================================== *)

(** A method leaves the entity and everything it shares untouched. *)
Definition read_only {Api Self A} (m : M (St Api Self) A) : Prop :=
  ∀ s, snd (m s) = s.

(** A method returns a value in every state. *)
Definition total {Api Self A} (m : M (St Api Self) A) : Prop :=
  ∀ s, ∃ v, fst (m s) = Return v.

(** The coordinator publishes a new snapshot. *)
Definition with_data {Api} (d : Snapshot) (w : World Api) : World Api :=
  {| coordinator_data := d;
     gps_coordinator_data := gps_coordinator_data w;
     api := api w;
     api_calls := api_calls w;
     ha_state_writes := ha_state_writes w |}.

Definition refresh {Api Self} (d : Snapshot) (s : St Api Self) : St Api Self :=
  (fst s, with_data d (snd s)).

(** A read whose result after a refresh does not depend on an earlier
    read: nothing was kept from the earlier evaluation. *)
Definition uncached {Api Self A} (m : M (St Api Self) A) : Prop :=
  ∀ s d, fst (m (refresh d (snd (m s)))) = fst (m (refresh d s)).

(** The world after one remote call for [(vin, command)] that left the API
    wrapper in state [a]. *)
Definition after_call {Api} (w : World Api) (a : Api) (vin command : string)
  : World Api :=
  {| coordinator_data := coordinator_data w;
     gps_coordinator_data := gps_coordinator_data w;
     api := a;
     api_calls := api_calls w ++ [(vin, command)];
     ha_state_writes := ha_state_writes w |}.

(** The world after [async_write_ha_state] of the entity [uid]. *)
Definition after_write {Api} (w : World Api) (uid : string) : World Api :=
  {| coordinator_data := coordinator_data w;
     gps_coordinator_data := gps_coordinator_data w;
     api := api w;
     api_calls := api_calls w;
     ha_state_writes := ha_state_writes w ++ [uid] |}.

(** [hint] occurs in [field] as a contiguous substring. *)
Definition occurs_in (hint field : string) : Prop :=
  ∃ pre post, field = pre +:+ hint +:+ post.

(** [r] is the unit of the first entry of [hints] whose hint occurs in
    [field], or nothing when no hint occurs. *)
Definition first_hint_unit (hints : list (string * string)) (field : string)
    (r : option string) : Prop :=
  (r = None ∧ ∀ hint unit, (hint, unit) ∈ hints → ¬ occurs_in hint field)
  ∨ (∃ i hint unit,
       hints !! i = Some (hint, unit) ∧ occurs_in hint field ∧
       (∀ j hint' unit', j < i → hints !! j = Some (hint', unit') →
          ¬ occurs_in hint' field) ∧
       r = Some unit).

(** [attrs] holds [r] under ["last_remote_result"] when [r] is truthy and has
    no such key otherwise. *)
Definition shows_last_result (attrs : gmap string PyVal) (r : PyVal) : Prop :=
  attrs !! "last_remote_result" = if truthy r then Some r else None.

(** The commands for which [switch.async_setup_entry] builds a switch. *)
Definition switch_commands : list string :=
  ["flash_lights"; "honk_horn"; "open_trunk"; "close_windows"].

Definition sensor_vin (e : sensor.SensorEntity) : string :=
  match e with
  | sensor.Telemetry s => sensor.BydTelemetrySensor._vin s
  | sensor.Metric s => sensor.BydMetricSensor._vin s
  end.

Definition sensor_unique_id (e : sensor.SensorEntity) : string :=
  match e with
  | sensor.Telemetry s => sensor.BydTelemetrySensor._attr_unique_id s
  | sensor.Metric s => sensor.BydMetricSensor._attr_unique_id s
  end.

(** The unique ids of all entities of one setup pass over the three
    platforms. *)
Definition unique_ids {Api} {api_ops : BydApi Api}
    {helpers : CoordinatorHelpers} (w : World Api) : list string :=
  (climate.BydClimate._attr_unique_id <$> climate.async_setup_entry w)
  ++ (sensor_unique_id <$> sensor.async_setup_entry w)
  ++ (switch.BydMomentarySwitch._attr_unique_id <$> switch.async_setup_entry w).

(** [c] occurs in [s]. *)
Fixpoint has_char (c : ascii) (s : string) : bool :=
  match s with
  | EmptyString => false
  | String c' s' => Ascii.eqb c c' || has_char c s'
  end.

(** The form of a vehicle identification number (ISO 3779): seventeen
    characters, each a digit or a capital letter other than I, O and Q. *)
Definition is_VIN_char (c : ascii) : bool :=
  let n := nat_of_ascii c in
  ((48 <=? n) && (n <=? 57))
  || ((65 <=? n) && (n <=? 90)
      && negb (n =? 73) && negb (n =? 79) && negb (n =? 81)).

Fixpoint all_chars (p : ascii → bool) (s : string) : bool :=
  match s with
  | EmptyString => true
  | String c s' => p c && all_chars p s'
  end.

Definition is_VIN (s : string) : bool :=
  (String.length s =? 17) && all_chars is_VIN_char s.

(** A unique id is the VIN, an underscore, and a rest that names the
    entity within its vehicle. *)
Definition id_of (vin rest : string) : string := vin +:+ "_" +:+ rest.

(** The rests of the explicit sensors: [{source_key}_{key}]. *)
Definition explicit_rests : list string :=
  (λ d, id_of (sensor.source_key d) (sensor.key d)) <$> sensor.EXPLICIT_SENSORS.

(** The rests of the discovered sensors of one source: [{category}_{field}]
    for the fields that are not explicit for that source. *)
Definition metric_rests {helpers : CoordinatorHelpers}
    (vin category src : string) (source : gmap string PyObj) : list string :=
  id_of category <$>
  filter (λ field, field ∉ default ∅ (sensor.EXPLICIT_FIELDS_BY_SOURCE !! src))
    (map_to_list (sensor.metrics_of source vin)).*1.

(** The rests of all entities of one vehicle. *)
Definition vehicle_rests {Api} {helpers : CoordinatorHelpers}
    (w : World Api) (vin : string) : list string :=
  ["climate"] ++
  (explicit_rests ++
   ('(category, src, source) ←
      sensor.metric_sources w (data_get (coordinator_data w) "vehicles");
    metric_rests vin category src source)) ++
  switch_commands.

(** The unique ids of all entities of one vehicle, as the three setup
    functions build them in the iteration of that vehicle. *)
Definition vehicle_ids {Api} {api_ops : BydApi Api}
    {helpers : CoordinatorHelpers} (w : World Api) (x : string * PyObj)
  : list string :=
  let '(vin, vehicle) := x in
  (climate.BydClimate._attr_unique_id <$>
     [climate.BydClimate.__init__ MainCoordinator vin vehicle])
  ++ (sensor_unique_id <$>
        (sensor.explicit_entities vin vehicle ++
         ('(category, src, source) ←
            sensor.metric_sources w (data_get (coordinator_data w) "vehicles");
          sensor.metric_entities vin vehicle category src source)))
  ++ (switch.BydMomentarySwitch._attr_unique_id <$>
        [ switch.BydMomentarySwitch.__init__ MainCoordinator vin vehicle
            "flash_lights";
          switch.BydMomentarySwitch.__init__ MainCoordinator vin vehicle
            "honk_horn";
          switch.BydMomentarySwitch.__init__ MainCoordinator vin vehicle
            "open_trunk";
          switch.BydMomentarySwitch.__init__ MainCoordinator vin vehicle
            "close_windows" ]).

(** Category and source key of the five sources of discovered sensors. *)
Definition metric_categories : list (string * string) :=
  [ ("vehicle", "vehicle"); ("realtime", "realtime"); ("energy", "energy");
    ("hvac", "hvac"); ("charging", "charging") ].

(** The rests that do not depend on the snapshot. *)
Definition fixed_rests : list string :=
  "climate" :: explicit_rests ++ switch_commands.

(** Concrete inputs of the examples at the end of the file. *)
Definition example_vin : string := "LGXC74C48R0000001".

Definition api_error : PyExc :=
  MkExc "BydApiError" true "remote control failed" None.

Definition example_climate : climate.BydClimate.t :=
  climate.BydClimate.__init__ (helpers := reflective_helpers)
    MainCoordinator example_vin ObjNone.

(** One vehicle whose realtime status has the explicit field [speed] and the
    field [door_lock], which has no description. *)
Definition example_snapshot : Snapshot :=
  <[ "realtime" :=
       {[ example_vin :=
            ObjData (<[ "door_lock" := PyInt 1 ]> {[ "speed" := PyInt 0 ]}) ]} ]>
  {[ "vehicles" := {[ example_vin := ObjData {[ "name" := PyStr "Seal" ]} ]} ]}.

(** An HVAC status with the air conditioning on. *)
Definition example_hvac : HvacStatus :=
  {| is_ac_on := true;
     interior_temp_available := true;
     temp_in_car := Some (43 # 2);
     main_setting_temp_new := None;
     main_setting_temp := Some 22%Z;
     temp_out_car := PyInt 9;
     front_defrost_status := PyNone;
     steering_wheel_heat_state := PyNone;
     main_seat_heat_state := PyNone;
     main_seat_ventilation_state := PyNone;
     copilot_seat_heat_state := PyNone;
     copilot_seat_ventilation_state := PyNone |}.

(** A snapshot with that status for the example vehicle. *)
Definition hvac_snapshot : Snapshot :=
  {[ "hvac" := {[ example_vin := ObjHvac example_hvac ]} ]}.

(** An HVAC status whose integer setting is beyond the range of a double,
    and a snapshot with it. *)
Definition huge_setting_hvac : HvacStatus :=
  {| is_ac_on := true;
     interior_temp_available := false;
     temp_in_car := None;
     main_setting_temp_new := None;
     main_setting_temp := Some (10 ^ 400)%Z;
     temp_out_car := PyNone;
     front_defrost_status := PyNone;
     steering_wheel_heat_state := PyNone;
     main_seat_heat_state := PyNone;
     main_seat_ventilation_state := PyNone;
     copilot_seat_heat_state := PyNone;
     copilot_seat_ventilation_state := PyNone |}.

Definition huge_setting_snapshot : Snapshot :=
  {[ "hvac" := {[ example_vin := ObjHvac huge_setting_hvac ]} ]}.

(** Two vehicles: the one of [example_snapshot] and a second one. *)
Definition second_vin : string := "LGXC74C48R0000002".

Definition two_vehicle_snapshot : Snapshot :=
  <[ "realtime" :=
       {[ example_vin :=
            ObjData (<[ "door_lock" := PyInt 1 ]> {[ "speed" := PyInt 0 ]}) ]} ]>
  {[ "vehicles" :=
       <[ second_vin := ObjData {[ "name" := PyStr "Dolphin" ]} ]>
       {[ example_vin := ObjData {[ "name" := PyStr "Seal" ]} ]} ]}.

(** Two vehicles under distinct keys that are not VINs, one of which extends
    the other by ["_vehicle"]; the shorter one has an attribute [climate]. *)
Definition colliding_snapshot : Snapshot :=
  {[ "vehicles" :=
       <[ "V" := ObjData {[ "climate" := PyInt 1 ]} ]>
       {[ "V_vehicle" := ObjData ∅ ]} ]}.

(* ===================================================================== *)
(** ** device_info *)
(* ===================================================================== *)

(** [x or y] *)
Definition py_or (x y : PyVal) : PyVal := if truthy x then x else y.

(** [vehicle.brand_name] and [vehicle.model_name]: plain attribute access on
    the vehicle object, which raises [AttributeError] when the object has no
    such attribute ([None] and [HvacStatus] have neither). *)
Definition vehicle_getattr (vehicle : PyObj) (attr : string) : Outcome PyVal :=
  match vehicle with
  | ObjData attrs =>
      match attrs !! attr with
      | Some v => Return v
      | None => Raise (AttributeError attr)
      end
  | _ => Raise (AttributeError attr)
  end.

(** [homeassistant.helpers.entity.DeviceInfo], with the keys the entities
    pass. *)
Module DeviceInfo.
Record t := {
  identifiers : gset (string * string);
  name : string;
  manufacturer : PyVal;
  model : PyVal
}.
End DeviceInfo.

Section DeviceInfoOf.
Context {helpers : CoordinatorHelpers}.

(** [const.DOMAIN] *)
Variable DOMAIN : string.

(** The body shared, word for word, by the [device_info] property of the
    four entity classes.  The keyword arguments are evaluated in the order
    written. *)
Definition device_info_of (vin : string) (vehicle : PyObj)
  : Outcome DeviceInfo.t :=
  let display := get_vehicle_display vehicle in
  match vehicle_getattr vehicle "brand_name" with
  | Raise e => Raise e
  | Return brand_name =>
      match vehicle_getattr vehicle "model_name" with
      | Raise e => Raise e
      | Return model_name =>
          Return {| DeviceInfo.identifiers := {[ (DOMAIN, vin) ]};
                    DeviceInfo.name := display;
                    DeviceInfo.manufacturer := py_or brand_name (PyStr "BYD");
                    DeviceInfo.model := py_or model_name PyNone |}
      end
  end.

End DeviceInfoOf.

(* ===================================================================== *)
(** ** Further vocabulary *)
(* ===================================================================== *)

(** [BydClimate._attr_hvac_modes], the modes the climate entity offers. *)
Definition _attr_hvac_modes : list HVACMode := [OFF; HEAT_COOL].

(** The attribute keys that [BydClimate.extra_state_attributes] takes from
    the HVAC status. *)
Definition hvac_attribute_keys : list string :=
  [ "temp_out_car"; "front_defrost"; "steering_wheel_heat"; "main_seat_heat";
    "main_seat_ventilation"; "copilot_seat_heat"; "copilot_seat_ventilation" ].

(** The HVAC status the climate entity sees for its VIN, if any. *)
Definition hvac_status_of {Api} (self : climate.BydClimate.t) (w : World Api)
  : option HvacStatus :=
  as_HvacStatus
    (data_get (data_of w (climate.BydClimate.coordinator self)) "hvac"
       !! climate.BydClimate._vin self).

Definition sensor_coordinator (e : sensor.SensorEntity) : CoordRef :=
  match e with
  | sensor.Telemetry s => sensor.BydTelemetrySensor.coordinator s
  | sensor.Metric s => sensor.BydMetricSensor.coordinator s
  end.

Definition sensor_name (e : sensor.SensorEntity) : string :=
  match e with
  | sensor.Telemetry s => sensor.BydTelemetrySensor._attr_name s
  | sensor.Metric s => sensor.BydMetricSensor._attr_name s
  end.

Definition sensor_vehicle (e : sensor.SensorEntity) : PyObj :=
  match e with
  | sensor.Telemetry s => sensor.BydTelemetrySensor._vehicle s
  | sensor.Metric s => sensor.BydMetricSensor._vehicle s
  end.

Definition is_telemetry (e : sensor.SensorEntity) : bool :=
  match e with sensor.Telemetry _ => true | sensor.Metric _ => false end.

(** A client without any method. *)
Definition empty_client : Client := {| client_getattr attr := None |}.

(** An HVAC status that declares the interior temperature available and
    carries the sentinel. *)
Definition sentinel_hvac : HvacStatus :=
  {| is_ac_on := false;
     interior_temp_available := true;
     temp_in_car := Some (inject_Z (-129));
     main_setting_temp_new := None;
     main_setting_temp := None;
     temp_out_car := PyNone;
     front_defrost_status := PyNone;
     steering_wheel_heat_state := PyNone;
     main_seat_heat_state := PyNone;
     main_seat_ventilation_state := PyNone;
     copilot_seat_heat_state := PyNone;
     copilot_seat_ventilation_state := PyNone |}.

(** A vehicle object with a brand and an empty model name. *)
Definition example_vehicle : PyObj :=
  ObjData (<[ "model_name" := PyStr "" ]>
           (<[ "brand_name" := PyStr "Denza" ]>
            {[ "name" := PyStr "Seal" ]})).

(** The vehicle object of [example_snapshot]. *)
Definition seal : PyObj := ObjData {[ "name" := PyStr "Seal" ]}.

Definition seal_climate : climate.BydClimate.t :=
  climate.BydClimate.__init__ (helpers := reflective_helpers)
    MainCoordinator example_vin seal.

Definition example_switch : switch.BydMomentarySwitch.t :=
  switch.BydMomentarySwitch.__init__ (helpers := reflective_helpers)
    MainCoordinator example_vin example_vehicle "flash_lights".

Definition example_telemetry : sensor.BydTelemetrySensor.t :=
  sensor.BydTelemetrySensor.__init__ (helpers := reflective_helpers)
    MainCoordinator example_vin example_vehicle
    (sensor.mkDesc "speed" "Speed" "realtime" "realtime"
       (Some KILOMETERS_PER_HOUR) (Some SPEED) (Some MEASUREMENT)).

Definition door_lock_sensor : sensor.BydMetricSensor.t :=
  sensor.BydMetricSensor.__init__ (helpers := reflective_helpers)
    (sensor.active_coordinator "realtime") example_vin seal
    "realtime" "door_lock" "realtime".

(** Snapshots with an HVAC status carrying the sentinel, and with a
    realtime status of [None]. *)
Definition sentinel_snapshot : Snapshot :=
  {[ "hvac" := {[ example_vin := ObjHvac sentinel_hvac ]} ]}.

Definition none_snapshot : Snapshot :=
  {[ "realtime" := {[ example_vin := ObjNone ]} ]}.

(** The device of [example_vehicle]. *)
Definition example_device : DeviceInfo.t :=
  {| DeviceInfo.identifiers := {[ ("byd_vehicle", example_vin) ]};
     DeviceInfo.name := "Seal";
     DeviceInfo.manufacturer := PyStr "Denza";
     DeviceInfo.model := PyNone |}.

(* ===================================================================== *)
(** ** What the command methods do, as equations *)
(* ===================================================================== *)

Section Commands.
Context {Api : Type} {api_ops : BydApi Api} {helpers : CoordinatorHelpers}.

Lemma async_set_hvac_mode_run (self : climate.BydClimate.t) (w : World Api)
    (mode : HVACMode) :
  climate.BydClimate.async_set_hvac_mode mode (self, w) =
  let command := climate.BydClimate.command_of mode in
  let vin := climate.BydClimate._vin self in
  let self1 := climate.BydClimate.set_last_command (Some command) self in
  let '(out, a) :=
    async_call (api w) (climate.BydClimate._call self mode) vin command in
  match out with
  | Return _ =>
      (Return tt,
       (climate.BydClimate.set_last_mode mode self1,
        after_write (after_call w a vin command)
          (climate.BydClimate._attr_unique_id self)))
  | Raise e =>
      if exc_is_Exception e
      then (Raise (HomeAssistantError (exc_msg e) (Some e)),
            (self1, after_call w a vin command))
      else (Raise e, (self1, after_call w a vin command))
  end.
Proof.
  unfold climate.BydClimate.async_set_hvac_mode, try_except_Exception,
    api_async_call, async_write_ha_state, set_self, get_self, modify, raise.
  unfold mbind, M_bind, mret, M_ret. simpl.
  destruct (async_call _ _ _ _) as [[v|e] a]; simpl; [reflexivity|].
  destruct (exc_is_Exception e); reflexivity.
Qed.

Lemma async_turn_on_run (self : switch.BydMomentarySwitch.t) (w : World Api) :
  switch.BydMomentarySwitch.async_turn_on (self, w) =
  let command := switch.BydMomentarySwitch._command self in
  let vin := switch.BydMomentarySwitch._vin self in
  let '(out, a) :=
    async_call (api w) (switch.BydMomentarySwitch._call self) vin command in
  match out with
  | Return _ =>
      (Return tt,
       (self,
        after_write (after_call w a vin command)
          (switch.BydMomentarySwitch._attr_unique_id self)))
  | Raise e =>
      if exc_is_Exception e
      then (Raise (HomeAssistantError (exc_msg e) (Some e)),
            (self, after_call w a vin command))
      else (Raise e, (self, after_call w a vin command))
  end.
Proof.
  unfold switch.BydMomentarySwitch.async_turn_on, try_except_Exception,
    api_async_call, async_write_ha_state, set_self, get_self, modify, raise.
  unfold mbind, M_bind, mret, M_ret. simpl.
  destruct (async_call _ _ _ _) as [[v|e] a]; simpl; [reflexivity|].
  destruct (exc_is_Exception e); reflexivity.
Qed.

(** C1 (as amended).  When the remote call made by
    [BydClimate.async_set_hvac_mode] or [BydMomentarySwitch.async_turn_on]
    raises an exception that derives from [Exception], the method raises
    [HomeAssistantError] carrying [str] of that exception (and the exception
    itself as cause); when it raises an exception that derives from
    [BaseException] only, the method raises that very exception; and
    whatever the call does, it is made exactly once. *)
Theorem api_failure_reraised_call_made_once :
  (∀ (self : climate.BydClimate.t) (w : World Api) (mode : HVACMode) e a,
     async_call (api w) (climate.BydClimate._call self mode)
       (climate.BydClimate._vin self) (climate.BydClimate.command_of mode)
       = (Raise e, a) →
     let r := climate.BydClimate.async_set_hvac_mode mode (self, w) in
     (exc_is_Exception e = true →
      fst r = Raise (HomeAssistantError (exc_msg e) (Some e)))
     ∧ (exc_is_Exception e = false → fst r = Raise e))
  ∧ (∀ (self : switch.BydMomentarySwitch.t) (w : World Api) e a,
     async_call (api w) (switch.BydMomentarySwitch._call self)
       (switch.BydMomentarySwitch._vin self)
       (switch.BydMomentarySwitch._command self)
       = (Raise e, a) →
     let r := switch.BydMomentarySwitch.async_turn_on (self, w) in
     (exc_is_Exception e = true →
      fst r = Raise (HomeAssistantError (exc_msg e) (Some e)))
     ∧ (exc_is_Exception e = false → fst r = Raise e))
  ∧ (∀ (self : climate.BydClimate.t) (w : World Api) (mode : HVACMode),
     api_calls (snd (snd (climate.BydClimate.async_set_hvac_mode mode (self, w))))
       = api_calls w ++
         [(climate.BydClimate._vin self, climate.BydClimate.command_of mode)])
  ∧ (∀ (self : switch.BydMomentarySwitch.t) (w : World Api),
     api_calls (snd (snd (switch.BydMomentarySwitch.async_turn_on (self, w))))
       = api_calls w ++
         [(switch.BydMomentarySwitch._vin self,
           switch.BydMomentarySwitch._command self)]).
Proof.
  split_and!.
  - intros self w mode e a Hcall. cbv zeta.
    rewrite async_set_hvac_mode_run. cbv zeta. rewrite Hcall.
    split; intros He; rewrite He; reflexivity.
  - intros self w e a Hcall. cbv zeta.
    rewrite async_turn_on_run. cbv zeta. rewrite Hcall.
    split; intros He; rewrite He; reflexivity.
  - intros self w mode. rewrite async_set_hvac_mode_run. cbv zeta.
    destruct (async_call _ _ _ _) as [[v|e'] a]; [reflexivity|].
    destruct (exc_is_Exception e'); reflexivity.
  - intros self w. rewrite async_turn_on_run. cbv zeta.
    destruct (async_call _ _ _ _) as [[v|e'] a]; [reflexivity|].
    destruct (exc_is_Exception e'); reflexivity.
Qed.

(** C9.  When the remote call of [async_set_hvac_mode] raises, [_last_mode]
    keeps its value and [_last_command] already names the attempted command
    (and an exception deriving from [Exception] surfaces as
    [HomeAssistantError]); when the call returns, the method returns and
    both fields reflect the new command and mode.  The command is
    ["stop_climate"] for [HVACMode.OFF] and ["start_climate"] otherwise. *)
Theorem set_hvac_mode_fields_after_call
    (self : climate.BydClimate.t) (w : World Api) (mode : HVACMode)
    (out : Outcome PyVal) (a : Api) :
  async_call (api w) (climate.BydClimate._call self mode)
    (climate.BydClimate._vin self) (climate.BydClimate.command_of mode)
    = (out, a) →
  let r := climate.BydClimate.async_set_hvac_mode mode (self, w) in
  let self' := fst (snd r) in
  climate.BydClimate._last_command self'
    = Some (if HVACMode_is_OFF mode then "stop_climate" else "start_climate")
  ∧ match out with
    | Raise e =>
        climate.BydClimate._last_mode self' = climate.BydClimate._last_mode self
        ∧ (exc_is_Exception e = true →
           fst r = Raise (HomeAssistantError (exc_msg e) (Some e)))
    | Return _ =>
        climate.BydClimate._last_mode self' = mode ∧ fst r = Return tt
    end.
Proof.
  intros Hcall r self'. subst self' r.
  rewrite async_set_hvac_mode_run. cbv zeta. rewrite Hcall.
  destruct out as [v|e].
  - simpl. auto.
  - destruct (exc_is_Exception e) eqn:He; simpl; split; auto.
    split; [reflexivity|]. intros; discriminate.
Qed.

(** C10.  [is_on] is [False] in every state and changes nothing, also in
    the state reached by [async_turn_on]; [async_turn_off] returns, makes no
    remote call and leaves the entity, the API wrapper and the coordinator
    data as they were. *)
Theorem momentary_switch_is_never_on :
  (∀ s : St Api switch.BydMomentarySwitch.t,
     switch.BydMomentarySwitch.is_on s = (Return false, s))
  ∧ (∀ s : St Api switch.BydMomentarySwitch.t,
     fst (switch.BydMomentarySwitch.is_on
            (snd (switch.BydMomentarySwitch.async_turn_on s))) = Return false)
  ∧ (∀ (self : switch.BydMomentarySwitch.t) (w : World Api),
     let r := switch.BydMomentarySwitch.async_turn_off (self, w) in
     fst r = Return tt ∧ fst (snd r) = self
     ∧ api (snd (snd r)) = api w
     ∧ api_calls (snd (snd r)) = api_calls w
     ∧ coordinator_data (snd (snd r)) = coordinator_data w
     ∧ gps_coordinator_data (snd (snd r)) = gps_coordinator_data w).
Proof.
  split_and!.
  - reflexivity.
  - reflexivity.
  - intros self w. cbv zeta. split_and!; reflexivity.
Qed.

End Commands.

(* ===================================================================== *)
(** ** The read-only properties *)
(* ===================================================================== *)

Ltac run_read :=
  unfold mbind, M_bind, mret, M_ret, get_self, get_world; simpl;
  repeat case_match; simpl; try reflexivity; eauto.

Section Reads.
Context {Api : Type} {api_ops : BydApi Api} {helpers : CoordinatorHelpers}.

Lemma _get_hvac_status_run (self : climate.BydClimate.t) (w : World Api) :
  climate.BydClimate._get_hvac_status (self, w) =
  (Return (as_HvacStatus
             (data_get (data_of w (climate.BydClimate.coordinator self)) "hvac"
                !! climate.BydClimate._vin self)),
   (self, w)).
Proof. reflexivity. Qed.

Lemma read_only_uncached {Self A} (m : M (St Api Self) A) :
  read_only m → uncached m.
Proof. intros Hm s d. rewrite Hm. reflexivity. Qed.

Lemma hvac_mode_read_only : read_only (Api:=Api) climate.BydClimate.hvac_mode.
Proof.
  intros [self w]. unfold climate.BydClimate.hvac_mode.
  unfold mbind, M_bind. rewrite _get_hvac_status_run. run_read.
Qed.

Lemma realtime_temperature_read_only :
  read_only (Api:=Api) climate.BydClimate.realtime_temperature.
Proof.
  intros [self w]. unfold climate.BydClimate.realtime_temperature. run_read.
Qed.

Lemma current_temperature_read_only :
  read_only (Api:=Api) climate.BydClimate.current_temperature.
Proof.
  intros [self w]. unfold climate.BydClimate.current_temperature.
  unfold mbind at 1, M_bind at 1. rewrite _get_hvac_status_run.
  repeat case_match; try reflexivity; apply realtime_temperature_read_only.
Qed.

Lemma target_temperature_read_only :
  read_only (Api:=Api) climate.BydClimate.target_temperature.
Proof.
  intros [self w]. unfold climate.BydClimate.target_temperature.
  unfold mbind, M_bind. rewrite _get_hvac_status_run. run_read.
Qed.

Lemma climate_attributes_read_only :
  read_only (Api:=Api) climate.BydClimate.extra_state_attributes.
Proof.
  intros [self w]. unfold climate.BydClimate.extra_state_attributes,
    climate.BydClimate._get_hvac_status.
  run_read.
Qed.

Lemma switch_attributes_read_only :
  read_only (Api:=Api) switch.BydMomentarySwitch.extra_state_attributes.
Proof.
  intros [self w]. unfold switch.BydMomentarySwitch.extra_state_attributes.
  run_read.
Qed.

Lemma telemetry_native_value_read_only :
  read_only (Api:=Api) sensor.BydTelemetrySensor.native_value.
Proof. intros [self w]. reflexivity. Qed.

Lemma telemetry_attributes_read_only :
  read_only (Api:=Api) sensor.BydTelemetrySensor.extra_state_attributes.
Proof. intros [self w]. reflexivity. Qed.

Lemma metric_native_value_read_only :
  read_only (Api:=Api) sensor.BydMetricSensor.native_value.
Proof. intros [self w]. reflexivity. Qed.

Lemma metric_attributes_read_only :
  read_only (Api:=Api) sensor.BydMetricSensor.extra_state_attributes.
Proof.
  intros [self w]. unfold sensor.BydMetricSensor.extra_state_attributes.
  run_read.
Qed.

End Reads.

(** *** [float()] of an integer *)

Ltac lit t := let v := eval vm_compute in t in change t with v in *.

Section FloatConversion.
Local Open Scope Z_scope.

(** Integers of at most 53 bits are converted exactly. *)
Lemma float_of_int_exact (n : Z) :
  Z.abs n < 2 ^ 53 → float_of_int n = Some (inject_Z n).
Proof.
  intros Hn. unfold float_of_int.
  assert (Z.log2 (Z.abs n) - 52 <= 0) as He.
  { destruct (Z.eq_dec (Z.abs n) 0) as [->|Hz]; [simpl; lia|].
    assert (Z.log2 (Z.abs n) < 53); [|lia].
    apply Z.log2_lt_pow2; lia. }
  rewrite Z.max_l by lia. cbn [Z.ltb Z.compare andb].
  rewrite Z.shiftr_0_r, Z.add_0_r, Z.shiftl_0_r.
  destruct (Z.leb_spec (Z.shiftl 1 1024) (Z.abs n)) as [Hle|_].
  - exfalso. change (Z.shiftl 1 1024) with (2^1024) in Hle.
    assert (2^53 < 2^1024) by (apply Z.pow_lt_mono_r; lia). lia.
  - do 2 f_equal. lia.
Qed.

(** The conversion overflows exactly from [2^1024 - 2^970] on, the midpoint
    between the largest double and [2^1024]. *)
Lemma float_of_int_overflow (n : Z) :
  float_of_int n = None ↔ 2 ^ 1024 - 2 ^ 970 <= Z.abs n.
Proof.
  unfold float_of_int. set (a := Z.abs n).
  assert (0 <= a) as Ha by (subst a; lia).
  change (Z.shiftl 1 1024) with (2 ^ 1024).
  set (e := Z.max 0 (Z.log2 a - 52)).
  set (q := Z.shiftr a e). set (rem := Z.land a (Z.ones e)).
  set (half := Z.shiftl 1 (e - 1)).
  set (up := if (0 <? e) && _ then 1 else 0).
  assert ((2 ^ 1024 <= Z.shiftl (q + up) e) ↔ 2 ^ 1024 - 2 ^ 970 <= a) as K.
  2: { destruct (Z.leb_spec (2 ^ 1024) (Z.shiftl (q + up) e)); split;
       try done; intros; [tauto | exfalso; apply K in H0; lia]. }
  assert (0 <= e) as He by (subst e; lia).
  assert (0 < 2 ^ e) as Hpe by (apply Z.pow_pos_nonneg; lia).
  assert (q = a / 2 ^ e) as Hq by (subst q; apply Z.shiftr_div_pow2; lia).
  assert (rem = a mod 2 ^ e) as Hrem by (subst rem; apply Z.land_ones; lia).
  assert (a = q * 2 ^ e + rem ∧ 0 <= rem < 2 ^ e) as [Hdiv Hr].
  { rewrite Hq, Hrem. split; [|apply Z.mod_pos_bound; lia].
    rewrite Z.mul_comm. apply Z.div_mod. lia. }
  rewrite Z.shiftl_mul_pow2 by lia.
  destruct (Z.lt_ge_cases a (2 ^ 53)) as [Hsmall|Hbig].
  - (* below 2^53 nothing is dropped *)
    assert (e = 0) as He0.
    { subst e. destruct (Z.eq_dec a 0) as [->|Hz]; [reflexivity|].
      assert (Z.log2 a < 53) by (apply Z.log2_lt_pow2; lia). lia. }
    assert (up = 0) as -> by (subst up; rewrite He0; reflexivity).
    rewrite He0 in *. rewrite Z.pow_0_r in *.
    lit (2 ^ 53). lit (2 ^ 1024). lit (2 ^ 970). lia.
  - assert (0 < a) as Hpos by (lit (2 ^ 53); lia).
    pose proof (Z.log2_spec a Hpos) as [Hlo Hhi].
    assert (53 <= Z.log2 a) as HL by (apply Z.log2_le_pow2; lia).
    assert (e = Z.log2 a - 52) as He' by (subst e; lia).
    assert (2 ^ Z.log2 a = 2 ^ 52 * 2 ^ e) as Hpow.
    { rewrite <- Z.pow_add_r by lia. f_equal. lia. }
    assert (2 ^ Z.succ (Z.log2 a) = 2 ^ 53 * 2 ^ e) as Hpow'.
    { rewrite <- Z.pow_add_r by lia. f_equal. lia. }
    rewrite Hpow in Hlo. rewrite Hpow' in Hhi.
    assert (2 ^ 52 <= q < 2 ^ 53) as Hqr by (lit (2 ^ 52); lit (2 ^ 53); nia).
    assert (0 <= up <= 1) as Hup by (subst up; destruct (_ && _); lia).
    destruct (Z.lt_trichotomy (Z.log2 a) 1023) as [Hlt|[Heq|Hgt]].
    + (* at most 1023 bits: far below the limit *)
      assert (2 ^ e <= 2 ^ 970) as Hpe' by (apply Z.pow_le_mono_r; lia).
      assert ((q + up) * 2 ^ e <= 2 ^ 53 * 2 ^ e)
        by (apply Z.mul_le_mono_nonneg_r; lia).
      lit (2 ^ 53). lit (2 ^ 1024). lit (2 ^ 970). lia.
    + (* exactly 1024 bits: the last binade *)
      assert (e = 971) as He971 by lia.
      assert (up = if (2 ^ 970 <? rem) || ((rem =? 2 ^ 970) && Z.odd q)
                   then 1 else 0) as Hupdef.
      { subst up half. rewrite He971. reflexivity. }
      rewrite He971 in *.
      split.
      * intros Hov.
        assert (q = 2 ^ 53 - 1 ∧ up = 1) as [Hq1 Hup1].
        { lit (2 ^ 53). lit (2 ^ 52). lit (2 ^ 1024). lit (2 ^ 971). lia. }
        rewrite Hup1 in Hupdef.
        assert (2 ^ 970 <= rem) as Hrh.
        { destruct (Z.ltb_spec (2 ^ 970) rem); [lia|].
          destruct (Z.eqb_spec rem (2 ^ 970)); [lia|]. discriminate. }
        lit (2 ^ 53). lit (2 ^ 1024). lit (2 ^ 971). lit (2 ^ 970). lia.
      * intros Hthr.
        assert (q = 2 ^ 53 - 1 ∧ 2 ^ 970 <= rem) as [Hq1 Hrh].
        { lit (2 ^ 53). lit (2 ^ 52). lit (2 ^ 1024). lit (2 ^ 971).
          lit (2 ^ 970). lia. }
        assert (up = 1) as Hup1.
        { rewrite Hupdef. destruct (Z.ltb_spec (2 ^ 970) rem); [reflexivity|].
          assert (rem = 2 ^ 970) as -> by lia.
          rewrite Z.eqb_refl, Hq1. reflexivity. }
        rewrite Hq1, Hup1. lit (2 ^ 53). lit (2 ^ 1024). lit (2 ^ 971). lia.
    + (* more than 1024 bits *)
      assert (2 ^ 972 <= 2 ^ e) as Hpe' by (apply Z.pow_le_mono_r; lia).
      assert (2 ^ 52 * 2 ^ e <= (q + up) * 2 ^ e)
        by (apply Z.mul_le_mono_nonneg_r; lia).
      lit (2 ^ 52). lit (2 ^ 1024). lit (2 ^ 970). lit (2 ^ 972). lia.
Qed.

End FloatConversion.

Section ReadClaims.
Context {Api : Type} {api_ops : BydApi Api} {helpers : CoordinatorHelpers}.

Lemma hvac_mode_run (self : climate.BydClimate.t) (w : World Api) :
  fst (climate.BydClimate.hvac_mode (self, w)) =
  Return
    match as_HvacStatus
            (data_get (data_of w (climate.BydClimate.coordinator self)) "hvac"
               !! climate.BydClimate._vin self) with
    | Some h => if is_ac_on h then HEAT_COOL else OFF
    | None => climate.BydClimate._last_mode self
    end.
Proof.
  unfold climate.BydClimate.hvac_mode, mbind, M_bind.
  rewrite _get_hvac_status_run. run_read.
Qed.

Lemma realtime_temperature_total :
  total (Api:=Api) climate.BydClimate.realtime_temperature.
Proof.
  intros [self w]. unfold climate.BydClimate.realtime_temperature. run_read.
Qed.

Lemma current_temperature_total :
  total (Api:=Api) climate.BydClimate.current_temperature.
Proof.
  intros [self w]. unfold climate.BydClimate.current_temperature.
  unfold mbind at 1, M_bind at 1. rewrite _get_hvac_status_run.
  repeat case_match; eauto using realtime_temperature_total.
  all: apply realtime_temperature_total.
Qed.

Lemma target_temperature_run (self : climate.BydClimate.t) (w : World Api) :
  fst (climate.BydClimate.target_temperature (self, w)) =
  match as_HvacStatus
          (data_get (data_of w (climate.BydClimate.coordinator self)) "hvac"
             !! climate.BydClimate._vin self) with
  | Some h =>
      match main_setting_temp_new h, main_setting_temp h with
      | Some t, _ => Return (PyFloat t)
      | None, Some n => py_float n
      | None, None => Return PyNone
      end
  | None => Return PyNone
  end.
Proof.
  unfold climate.BydClimate.target_temperature, mbind, M_bind.
  rewrite _get_hvac_status_run.
  unfold mret, M_ret, raise. simpl.
  repeat case_match; simpl; congruence.
Qed.

Lemma climate_attributes_total :
  total (Api:=Api) climate.BydClimate.extra_state_attributes.
Proof.
  intros [self w]. unfold climate.BydClimate.extra_state_attributes,
    climate.BydClimate._get_hvac_status.
  run_read.
Qed.

Lemma switch_attributes_total :
  total (Api:=Api) switch.BydMomentarySwitch.extra_state_attributes.
Proof.
  intros [self w]. unfold switch.BydMomentarySwitch.extra_state_attributes.
  run_read.
Qed.

Lemma metric_attributes_total :
  total (Api:=Api) sensor.BydMetricSensor.extra_state_attributes.
Proof.
  intros [self w]. unfold sensor.BydMetricSensor.extra_state_attributes.
  run_read.
Qed.

Lemma data_get_missing_key (d : Snapshot) (k vin : string) :
  d !! k = None → data_get d k !! vin = None.
Proof. intros Hk. unfold data_get. rewrite Hk. apply lookup_empty. Qed.

(** C3.  Evaluating a read-only property ([native_value] of both sensor
    classes, [hvac_mode], [current_temperature], [target_temperature] and
    [extra_state_attributes] of every entity class) leaves the entity, the
    coordinators' data with the status objects in it, and the API wrapper
    exactly as they were; and the value read after the coordinator has
    published new data is the same whether or not the property was read
    before, so nothing is kept from an earlier evaluation. *)
Theorem reads_leave_coordinator_data_unchanged :
  (read_only (Api:=Api) sensor.BydTelemetrySensor.native_value
   ∧ read_only (Api:=Api) sensor.BydMetricSensor.native_value
   ∧ read_only (Api:=Api) climate.BydClimate.hvac_mode
   ∧ read_only (Api:=Api) climate.BydClimate.current_temperature
   ∧ read_only (Api:=Api) climate.BydClimate.target_temperature
   ∧ read_only (Api:=Api) climate.BydClimate.extra_state_attributes
   ∧ read_only (Api:=Api) switch.BydMomentarySwitch.extra_state_attributes
   ∧ read_only (Api:=Api) sensor.BydTelemetrySensor.extra_state_attributes
   ∧ read_only (Api:=Api) sensor.BydMetricSensor.extra_state_attributes)
  ∧ (uncached (Api:=Api) sensor.BydTelemetrySensor.native_value
   ∧ uncached (Api:=Api) sensor.BydMetricSensor.native_value
   ∧ uncached (Api:=Api) climate.BydClimate.hvac_mode
   ∧ uncached (Api:=Api) climate.BydClimate.current_temperature
   ∧ uncached (Api:=Api) climate.BydClimate.target_temperature
   ∧ uncached (Api:=Api) climate.BydClimate.extra_state_attributes
   ∧ uncached (Api:=Api) switch.BydMomentarySwitch.extra_state_attributes
   ∧ uncached (Api:=Api) sensor.BydTelemetrySensor.extra_state_attributes
   ∧ uncached (Api:=Api) sensor.BydMetricSensor.extra_state_attributes).
Proof.
  split; split_and!; try apply read_only_uncached;
    auto using telemetry_native_value_read_only, metric_native_value_read_only,
      hvac_mode_read_only, current_temperature_read_only,
      target_temperature_read_only, climate_attributes_read_only,
      switch_attributes_read_only, telemetry_attributes_read_only,
      metric_attributes_read_only.
Qed.

(** C7 (as amended).  On every coordinator snapshot, also one without some
    of the keys or without the entity's VIN, every value-read property other
    than [target_temperature] returns a value and never raises.
    [target_temperature] raises, and then [OverflowError], exactly when the
    HVAC status has no [main_setting_temp_new] and an integer
    [main_setting_temp] of magnitude [2^1024 - 2^970] or more, which
    [float()] cannot convert; in every other case it returns a value, and a
    setting of at most 53 bits is returned as the float of the same value.
    When the snapshot has no ["hvac"] entry for the entity's VIN, [hvac_mode]
    is the last commanded mode and [target_temperature] is [None]; when the
    source mapping of a sensor has no entry for its VIN, [native_value] is
    [None]. *)
Theorem value_reads_total_up_to_float_overflow :
  (total (Api:=Api) sensor.BydTelemetrySensor.native_value
   ∧ total (Api:=Api) sensor.BydMetricSensor.native_value
   ∧ total (Api:=Api) climate.BydClimate.hvac_mode
   ∧ total (Api:=Api) climate.BydClimate.current_temperature
   ∧ total (Api:=Api) climate.BydClimate.extra_state_attributes
   ∧ total (Api:=Api) switch.BydMomentarySwitch.extra_state_attributes
   ∧ total (Api:=Api) sensor.BydTelemetrySensor.extra_state_attributes
   ∧ total (Api:=Api) sensor.BydMetricSensor.extra_state_attributes)
  ∧ (∀ (self : climate.BydClimate.t) (w : World Api),
       (∀ h n, hvac_status_of self w = Some h →
               main_setting_temp_new h = None →
               main_setting_temp h = Some n →
               (Z.abs n < 2 ^ 1024 - 2 ^ 970)%Z) →
       ∃ v, fst (climate.BydClimate.target_temperature (self, w)) = Return v)
  ∧ (∀ (self : climate.BydClimate.t) (w : World Api) h n,
       hvac_status_of self w = Some h →
       main_setting_temp_new h = None →
       main_setting_temp h = Some n →
       (2 ^ 1024 - 2 ^ 970 <= Z.abs n)%Z →
       fst (climate.BydClimate.target_temperature (self, w))
       = Raise (OverflowError "int too large to convert to float"))
  ∧ (∀ (self : climate.BydClimate.t) (w : World Api) h n,
       hvac_status_of self w = Some h →
       main_setting_temp_new h = None →
       main_setting_temp h = Some n →
       (Z.abs n < 2 ^ 53)%Z →
       fst (climate.BydClimate.target_temperature (self, w))
       = Return (PyFloat (inject_Z n)))
  ∧ (∀ (self : climate.BydClimate.t) (w : World Api),
       data_get (data_of w (climate.BydClimate.coordinator self)) "hvac"
         !! climate.BydClimate._vin self = None →
       fst (climate.BydClimate.hvac_mode (self, w))
         = Return (climate.BydClimate._last_mode self)
       ∧ fst (climate.BydClimate.target_temperature (self, w)) = Return PyNone)
  ∧ (∀ (self : sensor.BydTelemetrySensor.t) (w : World Api),
       sensor.source_of (data_of w (sensor.BydTelemetrySensor.coordinator self))
         (sensor.source_key (sensor.BydTelemetrySensor.entity_description self))
         !! sensor.BydTelemetrySensor._vin self = None →
       fst (sensor.BydTelemetrySensor.native_value (self, w)) = Return PyNone)
  ∧ (∀ (self : sensor.BydMetricSensor.t) (w : World Api),
       sensor.source_of (data_of w (sensor.BydMetricSensor.coordinator self))
         (sensor.BydMetricSensor._source_key self)
         !! sensor.BydMetricSensor._vin self = None →
       fst (sensor.BydMetricSensor.native_value (self, w)) = Return PyNone).
Proof.
  split_and!.
  - intros [self w]. eexists. reflexivity.
  - intros [self w]. eexists. reflexivity.
  - intros [self w]. eexists. apply hvac_mode_run.
  - apply current_temperature_total.
  - apply climate_attributes_total.
  - apply switch_attributes_total.
  - intros [self w]. eexists. reflexivity.
  - apply metric_attributes_total.
  - intros self w Hrange. rewrite target_temperature_run.
    unfold hvac_status_of in Hrange.
    destruct (as_HvacStatus _) as [h|]; [|by eauto].
    destruct (main_setting_temp_new h) as [t|] eqn:Hnew; [by eauto|].
    destruct (main_setting_temp h) as [n|] eqn:Hold; [|by eauto].
    specialize (Hrange h n eq_refl Hnew Hold).
    unfold py_float. destruct (float_of_int n) as [q|] eqn:Hf; [by eauto|].
    apply float_of_int_overflow in Hf. lia.
  - intros self w h n Hh Hnew Hold Hbig. rewrite target_temperature_run.
    unfold hvac_status_of in Hh. rewrite Hh, Hnew, Hold.
    unfold py_float. apply float_of_int_overflow in Hbig. by rewrite Hbig.
  - intros self w h n Hh Hnew Hold Hsmall. rewrite target_temperature_run.
    unfold hvac_status_of in Hh. rewrite Hh, Hnew, Hold.
    unfold py_float. by rewrite (float_of_int_exact n Hsmall).
  - intros self w Hnone. rewrite hvac_mode_run, target_temperature_run.
    rewrite Hnone. split; reflexivity.
  - intros self w Hnone.
    unfold sensor.BydTelemetrySensor.native_value. simpl.
    unfold sensor.metrics_of. rewrite Hnone. reflexivity.
  - intros self w Hnone.
    unfold sensor.BydMetricSensor.native_value. simpl.
    unfold sensor.metrics_of. rewrite Hnone. reflexivity.
Qed.

End ReadClaims.

(* ===================================================================== *)
(** ** The last remote result among the attributes *)
(* ===================================================================== *)

Section LastRemoteResult.
Context {Api : Type} {api_ops : BydApi Api} {helpers : CoordinatorHelpers}.

Lemma command_of_nonempty (mode : HVACMode) :
  String.eqb (climate.BydClimate.command_of mode) "" = false.
Proof. destruct mode; reflexivity. Qed.

Lemma climate_attributes_last_result (self : climate.BydClimate.t)
    (w : World Api) (command : string) :
  climate.BydClimate._last_command self = Some command →
  String.eqb command "" = false →
  ∃ attrs,
    fst (climate.BydClimate.extra_state_attributes (self, w)) = Return attrs
    ∧ shows_last_result attrs
        (get_last_remote_result (api w) (climate.BydClimate._vin self) command).
Proof.
  intros Hcmd Hne.
  unfold climate.BydClimate.extra_state_attributes,
    climate.BydClimate._get_hvac_status, shows_last_result.
  unfold mbind, M_bind, mret, M_ret, get_self, get_world. simpl.
  rewrite Hcmd, Hne. simpl.
  destruct (truthy _) eqn:Ht; simpl; eexists; (split; [reflexivity|]).
  - apply lookup_insert_eq.
  - destruct (as_HvacStatus _); by simplify_map_eq.
Qed.

(** C4.  The attributes of every [BydMomentarySwitch], and of a
    [BydClimate] in the state left by a climate command (whether the command
    succeeded or raised), hold under ["last_remote_result"] the value of
    [api.get_last_remote_result(vin, command)] when that value is truthy,
    and have no such key otherwise. *)
Theorem last_remote_result_attribute :
  (∀ (self : switch.BydMomentarySwitch.t) (w : World Api),
     ∃ attrs,
       fst (switch.BydMomentarySwitch.extra_state_attributes (self, w))
         = Return attrs
       ∧ shows_last_result attrs
           (get_last_remote_result (api w)
              (switch.BydMomentarySwitch._vin self)
              (switch.BydMomentarySwitch._command self)))
  ∧ (∀ (self : climate.BydClimate.t) (w : World Api) (mode : HVACMode),
     let s' := snd (climate.BydClimate.async_set_hvac_mode mode (self, w)) in
     ∃ attrs,
       fst (climate.BydClimate.extra_state_attributes s') = Return attrs
       ∧ shows_last_result attrs
           (get_last_remote_result (api (snd s'))
              (climate.BydClimate._vin self)
              (climate.BydClimate.command_of mode))).
Proof.
  split.
  - intros self w.
    unfold switch.BydMomentarySwitch.extra_state_attributes, shows_last_result.
    unfold mbind, M_bind, mret, M_ret, get_self, get_world. simpl.
    destruct (truthy _) eqn:Ht; simpl; eexists; (split; [reflexivity|]).
    + apply lookup_insert_eq.
    + by simplify_map_eq.
  - intros self w mode s'. subst s'.
    rewrite async_set_hvac_mode_run. cbv zeta.
    destruct (async_call _ _ _ _) as [[v|e] a]; [|destruct (exc_is_Exception e)];
      simpl;
      match goal with
      | |- ∃ _, fst (_ (?c, ?w')) = _ ∧ _ =>
          apply (climate_attributes_last_result c w'
                   (climate.BydClimate.command_of mode) eq_refl
                   (command_of_nonempty mode))
      end.
Qed.

End LastRemoteResult.

(* ===================================================================== *)
(** ** Units of discovered metrics *)
(* ===================================================================== *)

Section UnitHints.

Lemma append_nil_l (s : string) : "" +:+ s = s.
Proof. reflexivity. Qed.

Lemma append_cons (c : ascii) (p s : string) :
  String c p +:+ s = String c (p +:+ s).
Proof. reflexivity. Qed.

Lemma prefix_app (p s : string) :
  String.prefix p s = true ↔ ∃ post, s = p +:+ post.
Proof.
  revert s. induction p as [|a p IH]; intros s.
  - split; [intros _; by exists s|]. intros _. by destruct s.
  - destruct s as [|b s]; simpl.
    + split; [done|]. intros [post Hpost]. discriminate.
    + destruct (ascii_dec a b) as [->|Hab].
      * rewrite IH. split; intros [post Hpost]; exists post;
          rewrite ?append_cons in *; congruence.
      * split; [done|]. intros [post Hpost].
        rewrite append_cons in Hpost. congruence.
Qed.

Lemma str_contains_nil (hint : string) :
  str_contains hint "" = String.prefix hint "" || false.
Proof. reflexivity. Qed.

Lemma str_contains_cons (hint : string) (c : ascii) (rest : string) :
  str_contains hint (String c rest)
  = String.prefix hint (String c rest) || str_contains hint rest.
Proof. reflexivity. Qed.

Lemma str_contains_prefix (hint field : string) :
  String.prefix hint field = true → str_contains hint field = true.
Proof.
  intros Hp. destruct field.
  - rewrite str_contains_nil, Hp. done.
  - rewrite str_contains_cons, Hp. done.
Qed.

Lemma str_contains_occurs_in (hint field : string) :
  str_contains hint field = true ↔ occurs_in hint field.
Proof.
  unfold occurs_in. split.
  - induction field as [|c field IH].
    + rewrite str_contains_nil, orb_true_iff.
      intros [Hp|?]; [|done]. apply prefix_app in Hp as [post Hpost].
      by exists "", post.
    + rewrite str_contains_cons, orb_true_iff. intros [Hp|Hc].
      * apply prefix_app in Hp as [post Hpost]. by exists "", post.
      * destruct (IH Hc) as (pre & post & ->). by exists (String c pre), post.
  - intros (pre & post & ->). induction pre as [|c pre IH].
    + rewrite append_nil_l. apply str_contains_prefix, prefix_app. eauto.
    + rewrite append_cons, str_contains_cons, IH. apply orb_true_r.
Qed.

Lemma unit_of_hints_first (hints : list (string * string)) (field : string) :
  first_hint_unit hints field
    (sensor.BydMetricSensor.unit_of_hints hints field).
Proof.
  induction hints as [|[hint unit] hints IH]; simpl.
  - left. split; [done|]. intros ?? Hin. by apply elem_of_nil in Hin.
  - destruct (str_contains hint field) eqn:Hc.
    + right. exists 0, hint, unit. split_and!; [done| |intros; lia|done].
      by apply str_contains_occurs_in.
    + assert (¬ occurs_in hint field) as Hno.
      { rewrite <- str_contains_occurs_in, Hc. done. }
      destruct IH as [[-> Hnone]|(i & h & u & Hi & Hocc & Hfirst & ->)].
      * left. split; [done|]. intros h u [Heq|Hin]%elem_of_cons.
        -- by inversion Heq; subst.
        -- by eapply Hnone.
      * right. exists (S i), h, u. split_and!; [done|done| |done].
        intros [|j] h' u' Hlt Hj; simpl in Hj.
        -- by inversion Hj; subst.
        -- eapply Hfirst; [|done]. lia.
Qed.

End UnitHints.

Section UnitClaim.
Context {Api : Type} {api_ops : BydApi Api} {helpers : CoordinatorHelpers}.

(** C2.  [BydMetricSensor.native_unit_of_measurement] returns the unit of
    the first hint, in the order percent, mileage, endurance, speed, temp,
    pressure, direction, that occurs as a substring of the sensor's field
    name, and [None] when none of the hints occurs in it. *)
Theorem metric_unit_is_first_matching_hint :
  sensor._UNIT_HINTS.*1 =
    ["percent"; "mileage"; "endurance"; "speed"; "temp"; "pressure";
     "direction"]
  ∧ ∀ (self : sensor.BydMetricSensor.t) (w : World Api),
      ∃ r,
        sensor.BydMetricSensor.native_unit_of_measurement (self, w)
          = (Return r, (self, w))
        ∧ first_hint_unit sensor._UNIT_HINTS
            (sensor.BydMetricSensor._field self) r.
Proof.
  split; [reflexivity|]. intros self w. eexists. split; [reflexivity|].
  apply unit_of_hints_first.
Qed.

End UnitClaim.

(* ===================================================================== *)
(** ** Setup: which entities are built *)
(* ===================================================================== *)

Section SetupCounting.
Context {V E : Type}.

Lemma elem_of_map_to_list_keys (m : gmap string V) (vin : string) :
  vin ∈ (map_to_list m).*1 ↔ vin ∈ dom m.
Proof.
  rewrite elem_of_dom, list_elem_of_fmap. split.
  - intros ([k v] & -> & Hin). apply elem_of_map_to_list in Hin. eauto.
  - intros [v Hv]. exists (vin, v). split; [done|].
    by apply elem_of_map_to_list.
Qed.

(** Counting in a list built by one loop over the items of a dictionary:
    only the iteration of the key [vin] contributes. *)
Lemma count_bind_key (l : list (string * V)) (f : string * V → list E)
    (P : E → Prop) `{!∀ e, Decision (P e)} (vin : string) (n : nat) :
  NoDup l.*1 →
  (∀ k v, k ≠ vin → filter P (f (k, v)) = []) →
  (∀ v, length (filter P (f (vin, v))) = n) →
  length (filter P (l ≫= f)) = if decide (vin ∈ l.*1) then n else 0.
Proof.
  intros Hnd Hother Hvin. induction l as [|[k v] l IH].
  - rewrite decide_False; [done|]. intros Hin. by apply elem_of_nil in Hin.
  - rewrite fmap_cons in Hnd. apply NoDup_cons in Hnd as [Hk Hnd].
    rewrite bind_cons, filter_app, length_app, (IH Hnd), fmap_cons.
    destruct (decide (k = vin)) as [->|Hne].
    + rewrite Hvin. rewrite (decide_True (P:=vin ∈ vin :: l.*1)) by left.
      simpl in Hk. rewrite decide_False by done. lia.
    + rewrite (Hother k v Hne). simpl.
      destruct (decide (vin ∈ l.*1)) as [Hin|Hnin].
      * rewrite decide_True; [done|]. by right.
      * rewrite decide_False; [done|].
        intros [?|?]%elem_of_cons; [congruence|done].
Qed.

Lemma count_setup (m : gmap string V) (f : string * V → list E)
    (P : E → Prop) `{!∀ e, Decision (P e)} (vin : string) (n : nat) :
  (∀ k v, k ≠ vin → filter P (f (k, v)) = []) →
  (∀ v, length (filter P (f (vin, v))) = n) →
  length (filter P (map_to_list m ≫= f)) = if decide (vin ∈ dom m) then n else 0.
Proof.
  intros Hother Hvin.
  rewrite (count_bind_key _ f P vin n (NoDup_fst_map_to_list m) Hother Hvin).
  repeat case_decide; try done; exfalso;
    rewrite elem_of_map_to_list_keys in *; done.
Qed.

End SetupCounting.

Section SetupClaims.
Context {Api : Type} {api_ops : BydApi Api} {helpers : CoordinatorHelpers}.

Lemma switch_count_one_vehicle (vin command : string) (vehicle : PyObj) :
  length
    (filter
       (λ s, switch.BydMomentarySwitch._vin s = vin
             ∧ switch.BydMomentarySwitch._command s = command)
       [ switch.BydMomentarySwitch.__init__ MainCoordinator vin vehicle
           "flash_lights";
         switch.BydMomentarySwitch.__init__ MainCoordinator vin vehicle
           "honk_horn";
         switch.BydMomentarySwitch.__init__ MainCoordinator vin vehicle
           "open_trunk";
         switch.BydMomentarySwitch.__init__ MainCoordinator vin vehicle
           "close_windows" ])
  = if decide (command ∈ switch_commands) then 1 else 0.
Proof.
  unfold switch_commands. rewrite !filter_cons, filter_nil. simpl.
  repeat case_decide; simpl; try reflexivity; exfalso;
    repeat match goal with
    | H : _ ∧ _ |- _ => destruct H
    | H : ¬ (_ ∧ _) |- _ => apply not_and_l in H as [H|H]; [done|]
    end; subst; try discriminate;
    repeat match goal with
    | H : _ ∈ _ :: _ |- _ => apply elem_of_cons in H as [H|H]
    | H : _ ∈ [] |- _ => by apply elem_of_nil in H
    | H : ¬ _ ∈ _ |- _ => apply H; set_solver
    end; congruence.
Qed.

Lemma sensor_vin_explicit (vin : string) (vehicle : PyObj) e :
  e ∈ sensor.explicit_entities vin vehicle → sensor_vin e = vin.
Proof.
  unfold sensor.explicit_entities.
  intros (desc & Hin & _)%list_elem_of_bind.
  apply list_elem_of_singleton in Hin as ->. reflexivity.
Qed.

Lemma elem_of_metric_entities (vin : string) (vehicle : PyObj)
    (category src : string) (source : gmap string PyObj) e :
  e ∈ sensor.metric_entities vin vehicle category src source ↔
  ∃ field,
    e = sensor.Metric
          (sensor.BydMetricSensor.__init__ (sensor.active_coordinator src)
             vin vehicle category field src)
    ∧ field ∈ dom (sensor.metrics_of source vin)
    ∧ field ∉ default ∅ (sensor.EXPLICIT_FIELDS_BY_SOURCE !! src).
Proof.
  unfold sensor.metric_entities. rewrite list_elem_of_bind. split.
  - intros (field & Hin & Hfield). case_decide as Hex.
    + by apply elem_of_nil in Hin.
    + apply list_elem_of_singleton in Hin as ->. exists field.
      by rewrite <- elem_of_map_to_list_keys.
  - intros (field & -> & Hdom & Hex). exists field.
    rewrite decide_False by done. split; [by left|].
    by rewrite elem_of_map_to_list_keys.
Qed.

Lemma elem_of_sensor_setup (w : World Api) e :
  e ∈ sensor.async_setup_entry w ↔
  ∃ vin vehicle,
    data_get (coordinator_data w) "vehicles" !! vin = Some vehicle
    ∧ (e ∈ sensor.explicit_entities vin vehicle
       ∨ ∃ category src source,
           (category, src, source) ∈
             sensor.metric_sources w (data_get (coordinator_data w) "vehicles")
           ∧ e ∈ sensor.metric_entities vin vehicle category src source).
Proof.
  unfold sensor.async_setup_entry. rewrite list_elem_of_bind. split.
  - intros ([vin vehicle] & Hin & Hv%elem_of_map_to_list).
    exists vin, vehicle. split; [done|].
    apply elem_of_app in Hin as [Hin|Hin]; [by left|right].
    apply list_elem_of_bind in Hin as ([[category src] source] & He & Hsrc).
    eauto.
  - intros (vin & vehicle & Hv & Hin). exists (vin, vehicle).
    split; [|by apply elem_of_map_to_list].
    apply elem_of_app. destruct Hin as [Hin|(category & src & source & Hsrc & He)];
      [by left|right].
    apply list_elem_of_bind. by exists (category, src, source).
Qed.

(** C6.  One setup pass builds, for a VIN of the coordinator's ["vehicles"]
    mapping, exactly one [BydClimate] and exactly one [BydMomentarySwitch]
    for each of the commands flash_lights, honk_horn, open_trunk and
    close_windows, and builds no climate entity, no switch (of any command)
    and no sensor for a VIN that is not in the mapping. *)
Theorem entities_built_once_per_vehicle (w : World Api) :
  let vehicle_map := data_get (coordinator_data w) "vehicles" in
  switch_commands = ["flash_lights"; "honk_horn"; "open_trunk"; "close_windows"]
  ∧ (∀ vin,
       length (filter (λ c, climate.BydClimate._vin c = vin)
                 (climate.async_setup_entry w))
       = if decide (vin ∈ dom vehicle_map) then 1 else 0)
  ∧ (∀ vin command,
       length (filter (λ s, switch.BydMomentarySwitch._vin s = vin
                            ∧ switch.BydMomentarySwitch._command s = command)
                 (switch.async_setup_entry w))
       = if decide (vin ∈ dom vehicle_map)
         then (if decide (command ∈ switch_commands) then 1 else 0)
         else 0)
  ∧ (∀ e, e ∈ sensor.async_setup_entry w → sensor_vin e ∈ dom vehicle_map).
Proof.
  intros vehicle_map. split_and!.
  - reflexivity.
  - intros vin. unfold climate.async_setup_entry. apply count_setup.
    + intros k v Hne. simpl. rewrite filter_cons, decide_False by done. done.
    + intros v. simpl. rewrite filter_cons, decide_True by done. done.
  - intros vin command. unfold switch.async_setup_entry. apply count_setup.
    + intros k v Hne. simpl. rewrite !filter_cons, filter_nil.
      rewrite !decide_False; simpl; [done|intros [??]; done..].
    + intros v. apply switch_count_one_vehicle.
  - intros e (vin & vehicle & Hv & Hin)%elem_of_sensor_setup.
    assert (sensor_vin e = vin) as ->.
    { destruct Hin as [Hin|(category & src & source & _ & Hin)].
      - by eapply sensor_vin_explicit.
      - apply elem_of_metric_entities in Hin as (field & -> & _). done. }
    apply elem_of_dom. eauto.
Qed.

End SetupClaims.

(* ===================================================================== *)
(** ** Unique ids *)
(* ===================================================================== *)

Section ListFacts.
Context {A B C : Type}.

Lemma fmap_bind_list (g : B → C) (f : A → list B) (l : list A) :
  g <$> (l ≫= f) = l ≫= (λ x, g <$> f x).
Proof.
  induction l as [|x l IH]; [done|].
  by rewrite !bind_cons, fmap_app, IH.
Qed.

Lemma bind_nil_list (f : A → list B) : [] ≫= f = [].
Proof. done. Qed.

Lemma bind_app_Permutation (f g : A → list B) (l : list A) :
  (l ≫= f) ++ (l ≫= g) ≡ₚ l ≫= (λ x, f x ++ g x).
Proof.
  induction l as [|x l IH]; [done|].
  rewrite !bind_cons, <- IH, <- !(assoc_L (++)). f_equiv.
  rewrite !(assoc_L (++)). f_equiv. apply Permutation_app_comm.
Qed.

End ListFacts.

Section StringFacts.

Lemma append_inj_r (p s1 s2 : string) : p +:+ s1 = p +:+ s2 → s1 = s2.
Proof.
  induction p as [|c p IH]; [done|].
  rewrite !append_cons. intros Heq. apply IH. congruence.
Qed.

#[global] Instance id_of_inj (vin : string) : Inj (=) (=) (id_of vin).
Proof.
  intros r1 r2 Heq. unfold id_of in Heq.
  apply append_inj_r in Heq. by apply (append_inj_r "_") in Heq.
Qed.

(** An id determines its VIN when VINs have no underscore: the VIN is the
    part before the first underscore. *)
Lemma id_of_vin_inj (vin1 vin2 r1 r2 : string) :
  has_char "_" vin1 = false → has_char "_" vin2 = false →
  id_of vin1 r1 = id_of vin2 r2 → vin1 = vin2.
Proof.
  unfold id_of. revert vin2.
  induction vin1 as [|c1 vin1 IH]; intros [|c2 vin2] H1 H2 Heq.
  - done.
  - rewrite append_nil_l, !append_cons in Heq. simpl in H2.
    apply orb_false_iff in H2 as [H2 _].
    injection Heq as Hc _. subst c2. done.
  - rewrite append_nil_l, !append_cons in Heq. simpl in H1.
    apply orb_false_iff in H1 as [H1 _].
    injection Heq as Hc _. subst c1. done.
  - rewrite !append_cons in Heq. simpl in H1, H2.
    apply orb_false_iff in H1 as [_ H1]. apply orb_false_iff in H2 as [_ H2].
    injection Heq as -> Heq. f_equal. by apply IH.
Qed.

End StringFacts.

Section UniqueIds.
Context {Api : Type} {api_ops : BydApi Api} {helpers : CoordinatorHelpers}.

Lemma unique_ids_by_vehicle (w : World Api) :
  unique_ids w ≡ₚ
  map_to_list (data_get (coordinator_data w) "vehicles") ≫= vehicle_ids w.
Proof.
  unfold unique_ids, climate.async_setup_entry, sensor.async_setup_entry,
    switch.async_setup_entry.
  rewrite !fmap_bind_list.
  rewrite (bind_app_Permutation
             (λ x, sensor_unique_id <$> (let '(vin, vehicle) := x in _))
             (λ x, switch.BydMomentarySwitch._attr_unique_id <$>
                     (let '(vin, vehicle) := x in _))).
  rewrite bind_app_Permutation.
  apply reflexive_eq, list_bind_ext; [|done]. by intros [vin vehicle].
Qed.

Lemma metric_entities_ids (vin : string) (vehicle : PyObj)
    (category src : string) (source : gmap string PyObj) :
  sensor_unique_id <$> sensor.metric_entities vin vehicle category src source
  = id_of vin <$> metric_rests vin category src source.
Proof.
  unfold sensor.metric_entities, metric_rests.
  induction ((map_to_list (sensor.metrics_of source vin)).*1) as [|f fs IH];
    [done|].
  rewrite bind_cons, fmap_app, IH, filter_cons.
  case_decide as Hex.
  - rewrite decide_False by (by intros ?). done.
  - rewrite decide_True by done. done.
Qed.

Lemma vehicle_ids_rests (w : World Api) (vin : string) (vehicle : PyObj) :
  vehicle_ids w (vin, vehicle) = id_of vin <$> vehicle_rests w vin.
Proof.
  unfold vehicle_ids, vehicle_rests, sensor.metric_sources.
  rewrite !fmap_app. f_equal. f_equal.
  rewrite !bind_cons, !bind_nil_list, !fmap_app, !metric_entities_ids. done.
Qed.

Lemma elem_of_metric_rests (vin category src : string)
    (source : gmap string PyObj) (r : string) :
  r ∈ metric_rests vin category src source →
  ∃ field,
    r = id_of category field
    ∧ field ∉ default ∅ (sensor.EXPLICIT_FIELDS_BY_SOURCE !! src).
Proof.
  unfold metric_rests.
  intros (field & -> & [Hex _]%list_elem_of_filter)%list_elem_of_fmap. eauto.
Qed.

Lemma NoDup_metric_rests (vin category src : string)
    (source : gmap string PyObj) :
  NoDup (metric_rests vin category src source).
Proof.
  unfold metric_rests. apply (NoDup_fmap_2 _), NoDup_filter.
  apply NoDup_fst_map_to_list.
Qed.

(** A discovered sensor never takes the rest of the climate entity, of an
    explicit sensor or of a switch: within a source, explicit keys are
    skipped, and the names of the sources differ from each other and from
    the other rests in their first characters. *)
Lemma metric_rest_not_fixed (category src field : string) :
  (category, src) ∈ metric_categories →
  field ∉ default ∅ (sensor.EXPLICIT_FIELDS_BY_SOURCE !! src) →
  id_of category field ∉ fixed_rests.
Proof.
  intros Hcat Hex Hin. unfold metric_categories in Hcat.
  repeat (apply elem_of_cons in Hcat as [Hcat|Hcat]);
    [..|by apply elem_of_nil in Hcat];
    injection Hcat as -> ->;
    cbv in Hin;
    repeat (apply elem_of_cons in Hin as [Hin|Hin]);
    try (by apply elem_of_nil in Hin);
    try discriminate Hin;
    simplify_eq; apply Hex; compute_done.
Qed.

Lemma metric_rests_categories_disjoint (c1 c2 f1 f2 : string) :
  (c1, c1) ∈ metric_categories → (c2, c2) ∈ metric_categories →
  id_of c1 f1 = id_of c2 f2 → c1 = c2.
Proof.
  intros H1 H2 Heq. unfold metric_categories in *.
  repeat (apply elem_of_cons in H1 as [H1|H1]);
    [..|by apply elem_of_nil in H1];
    injection H1 as ->;
    (repeat (apply elem_of_cons in H2 as [H2|H2]);
     [..|by apply elem_of_nil in H2]);
    injection H2 as ->;
    try reflexivity; cbv in Heq; discriminate Heq.
Qed.

Lemma NoDup_fixed_rests : NoDup fixed_rests.
Proof. compute_done. Qed.

Lemma vehicle_rests_Permutation (w : World Api) (vin : string) :
  vehicle_rests w vin ≡ₚ
  ('(category, src, source) ←
     sensor.metric_sources w (data_get (coordinator_data w) "vehicles");
   metric_rests vin category src source) ++ fixed_rests.
Proof.
  unfold vehicle_rests, fixed_rests.
  set (ms := _ ≫= _).
  change ("climate" :: explicit_rests ++ switch_commands)
    with (["climate"] ++ explicit_rests ++ switch_commands).
  rewrite (Permutation_app_comm explicit_rests ms), <- (assoc_L (++) ms).
  apply Permutation_app_swap_app.
Qed.

Lemma NoDup_vehicle_rests (w : World Api) (vin : string) :
  NoDup (vehicle_rests w vin).
Proof.
  rewrite vehicle_rests_Permutation. apply NoDup_app. split_and!.
  - unfold sensor.metric_sources.
    rewrite !bind_cons, bind_nil_list, app_nil_r.
    repeat (apply NoDup_app; split_and!);
      try apply NoDup_metric_rests;
      intros r (f1 & -> & _)%elem_of_metric_rests Hin;
      repeat (apply elem_of_app in Hin as [Hin|Hin]);
      apply elem_of_metric_rests in Hin as (f2 & Heq & _);
      apply metric_rests_categories_disjoint in Heq;
      try discriminate Heq; unfold metric_categories; set_solver.
  - intros r Hin. unfold sensor.metric_sources in Hin.
    rewrite !bind_cons, bind_nil_list, app_nil_r in Hin.
    repeat (apply elem_of_app in Hin as [Hin|Hin]);
      apply elem_of_metric_rests in Hin as (field & -> & Hex);
      refine (metric_rest_not_fixed _ _ _ _ Hex);
      unfold metric_categories; set_solver.
  - apply NoDup_fixed_rests.
Qed.

(** A VIN has no underscore, the separator of the unique ids. *)
Lemma is_VIN_no_underscore (vin : string) :
  is_VIN vin = true → has_char "_" vin = false.
Proof.
  unfold is_VIN. intros [_ Hall]%andb_true_iff.
  induction vin as [|c vin IH]; [done|].
  cbn [all_chars] in Hall. apply andb_true_iff in Hall as [Hc Hall].
  cbn [has_char]. rewrite (IH Hall), orb_false_r.
  destruct (Ascii.eqb_spec "_" c) as [<-|]; [|done].
  discriminate Hc.
Qed.

(** The ids of a setup pass are pairwise distinct as soon as no key of the
    ["vehicles"] mapping has an underscore: the key is then the part of the
    id before its first underscore. *)
Lemma unique_ids_NoDup_without_underscore (w : World Api) :
  (∀ vin, vin ∈ dom (data_get (coordinator_data w) "vehicles") →
          has_char "_" vin = false) →
  NoDup (unique_ids w).
Proof.
  intros Hvin. rewrite unique_ids_by_vehicle. apply NoDup_bind.
  - intros [vin1 v1] [vin2 v2] y Hx1%elem_of_map_to_list
      Hx2%elem_of_map_to_list.
    rewrite !vehicle_ids_rests.
    intros (r1 & -> & _)%list_elem_of_fmap (r2 & Heq & _)%list_elem_of_fmap.
    assert (vin1 = vin2) as <-.
    { eapply id_of_vin_inj; [..|done]; apply Hvin, elem_of_dom; eauto. }
    congruence.
  - intros [vin vehicle] _. rewrite vehicle_ids_rests.
    apply (NoDup_fmap_2 _), NoDup_vehicle_rests.
  - apply NoDup_map_to_list.
Qed.

(** C8.  On a snapshot whose vehicles are keyed by their VINs (the keys of
    a mapping, hence distinct for distinct vehicles; each of the form of a
    VIN), the unique ids of all entities that one setup pass builds on the
    climate, sensor and switch platforms are pairwise distinct.  The ids are
    [{vin}_climate], [{vin}_{command}], [{vin}_{source_key}_{key}] for
    explicit sensors and [{vin}_{category}_{field}] for discovered ones,
    which leave out the explicit keys of their source. *)
Theorem unique_ids_distinct (w : World Api) :
  (∀ vin, vin ∈ dom (data_get (coordinator_data w) "vehicles") →
          is_VIN vin = true) →
  NoDup (unique_ids w)
  ∧ (∀ c, c ∈ climate.async_setup_entry w →
       climate.BydClimate._attr_unique_id c
       = climate.BydClimate._vin c +:+ "_climate")
  ∧ (∀ s, s ∈ switch.async_setup_entry w →
       switch.BydMomentarySwitch._attr_unique_id s
       = switch.BydMomentarySwitch._vin s +:+ "_" +:+
         switch.BydMomentarySwitch._command s)
  ∧ (∀ e, e ∈ sensor.async_setup_entry w →
       match e with
       | sensor.Telemetry t =>
           sensor.BydTelemetrySensor._attr_unique_id t
           = sensor.BydTelemetrySensor._vin t +:+ "_" +:+
             sensor.source_key (sensor.BydTelemetrySensor.entity_description t)
             +:+ "_" +:+
             sensor.key (sensor.BydTelemetrySensor.entity_description t)
       | sensor.Metric m =>
           sensor.BydMetricSensor._attr_unique_id m
           = sensor.BydMetricSensor._vin m +:+ "_" +:+
             sensor.BydMetricSensor._category m +:+ "_" +:+
             sensor.BydMetricSensor._field m
           ∧ sensor.BydMetricSensor._field m
               ∉ default ∅ (sensor.EXPLICIT_FIELDS_BY_SOURCE
                               !! sensor.BydMetricSensor._category m)
       end).
Proof.
  intros Hvin. split_and!.
  - apply unique_ids_NoDup_without_underscore.
    intros vin Hin. by apply is_VIN_no_underscore, Hvin.
  - unfold climate.async_setup_entry.
    intros c ([vin vehicle] & Hin & _)%list_elem_of_bind.
    by apply list_elem_of_singleton in Hin as ->.
  - unfold switch.async_setup_entry.
    intros s ([vin vehicle] & Hin & _)%list_elem_of_bind.
    repeat (apply elem_of_cons in Hin as [->|Hin]); try done.
    by apply elem_of_nil in Hin.
  - intros e (vin & vehicle & _ & [Hin|(category & src & source & Hsrc & Hin)])
      %elem_of_sensor_setup.
    + unfold sensor.explicit_entities in Hin.
      apply list_elem_of_bind in Hin as (desc & Hin & _).
      by apply list_elem_of_singleton in Hin as ->.
    + apply elem_of_metric_entities in Hin as (field & -> & _ & Hex).
      split; [done|]. simpl.
      unfold sensor.metric_sources in Hsrc.
      repeat (apply elem_of_cons in Hsrc as [[= -> -> ->]|Hsrc]); try done.
      by apply elem_of_nil in Hsrc.
Qed.

End UniqueIds.

(* ===================================================================== *)
(** ** Discovered sensors and explicit fields *)
(* ===================================================================== *)

Section Discovery.
Context {Api : Type} {api_ops : BydApi Api} {helpers : CoordinatorHelpers}.




End Discovery.

(* ===================================================================== *)
(** ** Examples on concrete inputs *)
(* ===================================================================== *)

(** Before the first HVAC status arrives the climate entity reports its
    last commanded mode; once the coordinator publishes a status, the same
    entity reports what the status says. *)
Lemma hvac_mode_follows_refresh :
  let s : St RecordingApi climate.BydClimate.t :=
    (example_climate, world0 (ok_client PyNone) ∅) in
  let d : Snapshot := {[ "hvac" := {[ example_vin := ObjHvac example_hvac ]} ]} in
  fst (climate.BydClimate.hvac_mode s) = Return OFF
  ∧ fst (climate.BydClimate.hvac_mode
           (refresh d (snd (climate.BydClimate.hvac_mode s))))
    = Return HEAT_COOL
  ∧ fst (climate.BydClimate.current_temperature (refresh d s))
    = Return (PyFloat (43 # 2))
  ∧ fst (climate.BydClimate.target_temperature (refresh d s))
    = Return (PyFloat (inject_Z 22)).
Proof. intros s d. split_and!; reflexivity. Qed.

(** The remote call fails with an exception deriving from [Exception]:
    the climate entity and the switch raise [HomeAssistantError] with the
    same message.  The remote call is cancelled: both raise
    [asyncio.CancelledError] itself. *)
Lemma api_failure_reraised_call_made_once_witness :
  let w := world0 (failing_client api_error) ∅ in
  let wc := world0 (failing_client CancelledError) ∅ in
  (fst (climate.BydClimate.async_set_hvac_mode (api_ops := recording_api)
          HEAT_COOL (example_climate, w))
   = Raise (HomeAssistantError "remote control failed" (Some api_error))
   ∧ fst (climate.BydClimate.async_set_hvac_mode (api_ops := recording_api)
            HEAT_COOL (example_climate, wc))
     = Raise CancelledError)
  ∧ (fst (switch.BydMomentarySwitch.async_turn_on (api_ops := recording_api)
            (example_switch, w))
     = Raise (HomeAssistantError "remote control failed" (Some api_error))
     ∧ fst (switch.BydMomentarySwitch.async_turn_on (api_ops := recording_api)
              (example_switch, wc))
       = Raise CancelledError).
Proof.
  intros w wc.
  destruct (api_failure_reraised_call_made_once (api_ops := recording_api))
    as (Hclimate & Hswitch & _).
  split; split.
  - exact (proj1 (Hclimate example_climate w HEAT_COOL api_error (api w)
                    eq_refl) eq_refl).
  - exact (proj2 (Hclimate example_climate wc HEAT_COOL CancelledError (api wc)
                    eq_refl) eq_refl).
  - exact (proj1 (Hswitch example_switch w api_error (api w) eq_refl) eq_refl).
  - exact (proj2 (Hswitch example_switch wc CancelledError (api wc) eq_refl)
             eq_refl).
Defined.

(** The remote call is cancelled: [asyncio.CancelledError] does not derive
    from [Exception], passes the [except Exception] clause and leaves
    [async_set_hvac_mode] as it is, not as a [HomeAssistantError]. *)
Lemma cancelled_call_is_not_wrapped :
  let w := world0 (failing_client CancelledError) ∅ in
  let r := climate.BydClimate.async_set_hvac_mode (api_ops := recording_api)
             HEAT_COOL (example_climate, w) in
  async_call (BydApi := recording_api) (api w)
    (climate.BydClimate._call example_climate HEAT_COOL)
    example_vin (climate.BydClimate.command_of HEAT_COOL)
  = (Raise CancelledError, api w)
  ∧ fst r = Raise CancelledError
  ∧ ∀ msg cause, fst r ≠ Raise (HomeAssistantError msg cause).
Proof.
  intros w r. split_and!; [reflexivity..|].
  intros msg cause Heq. vm_compute in Heq. discriminate Heq.
Qed.

(** A failed [stop_climate] keeps the previous mode and records the
    command; a successful one records both. *)
Lemma set_hvac_mode_fields_after_call_witness :
  let self := climate.BydClimate.set_last_mode HEAT_COOL example_climate in
  let failed :=
    climate.BydClimate.async_set_hvac_mode (api_ops := recording_api) OFF
      (self, world0 (failing_client api_error) ∅) in
  let done :=
    climate.BydClimate.async_set_hvac_mode (api_ops := recording_api) OFF
      (self, world0 (ok_client (PyStr "ok")) ∅) in
  (climate.BydClimate._last_command (fst (snd failed)) = Some "stop_climate"
   ∧ climate.BydClimate._last_mode (fst (snd failed)) = HEAT_COOL)
  ∧ (climate.BydClimate._last_command (fst (snd done)) = Some "stop_climate"
     ∧ climate.BydClimate._last_mode (fst (snd done)) = OFF
     ∧ fst done = Return tt).
Proof.
  intros self failed done. split.
  - destruct (set_hvac_mode_fields_after_call (api_ops := recording_api)
                self (world0 (failing_client api_error) ∅) OFF
                (Raise api_error) _ eq_refl) as (Hcmd & Hmode & _).
    split; [exact Hcmd | exact Hmode].
  - destruct (set_hvac_mode_fields_after_call (api_ops := recording_api)
                self (world0 (ok_client (PyStr "ok")) ∅) OFF
                (Return (PyStr "ok")) _ eq_refl) as (Hcmd & Hmode & Hret).
    split_and!; [exact Hcmd | exact Hmode | exact Hret].
Defined.

(** A status with the integer setting 22 gives the target temperature
    22.0; on the empty snapshot the climate entity falls back to its last
    mode and has no target temperature. *)
Lemma value_reads_total_up_to_float_overflow_witness :
  let w := world0 (ok_client PyNone) hvac_snapshot in
  let w0 := world0 (ok_client PyNone) ∅ in
  (∃ v, fst (climate.BydClimate.target_temperature (example_climate, w))
        = Return v)
  ∧ fst (climate.BydClimate.target_temperature (example_climate, w))
    = Return (PyFloat (inject_Z 22))
  ∧ fst (climate.BydClimate.hvac_mode (example_climate, w0)) = Return OFF
  ∧ fst (climate.BydClimate.target_temperature (example_climate, w0))
    = Return PyNone.
Proof.
  intros w w0.
  destruct (value_reads_total_up_to_float_overflow (api_ops := recording_api)
              (helpers := reflective_helpers))
    as (_ & Hret & _ & Hexact & Hfall & _).
  split_and!.
  - apply Hret. intros h n Hh _ Hn.
    vm_compute in Hh. injection Hh as <-. injection Hn as <-. reflexivity.
  - exact (Hexact example_climate w example_hvac 22%Z
             eq_refl eq_refl eq_refl eq_refl).
  - exact (proj1 (Hfall example_climate w0 eq_refl)).
  - exact (proj2 (Hfall example_climate w0 eq_refl)).
Defined.

(** The integer setting [10^400] with no float setting beside it:
    [float()] raises [OverflowError], and so does [target_temperature]. *)
Lemma target_temperature_overflows :
  let w := world0 (ok_client PyNone) huge_setting_snapshot in
  hvac_status_of example_climate w = Some huge_setting_hvac
  ∧ main_setting_temp_new huge_setting_hvac = None
  ∧ main_setting_temp huge_setting_hvac = Some (10 ^ 400)%Z
  ∧ fst (climate.BydClimate.target_temperature (example_climate, w))
    = Raise (OverflowError "int too large to convert to float")
  ∧ ¬ ∃ v, fst (climate.BydClimate.target_temperature (example_climate, w))
           = Return v.
Proof.
  intros w. split_and!; [reflexivity..| |].
  - vm_compute. reflexivity.
  - intros [v Hv]. vm_compute in Hv. discriminate Hv.
Qed.


(** Two vehicles with VINs: all unique ids of the setup pass differ. *)
Lemma unique_ids_distinct_witness :
  let w := world0 (ok_client PyNone) two_vehicle_snapshot in
  size (data_get (coordinator_data w) "vehicles") = 2
  ∧ NoDup (unique_ids (api_ops := recording_api)
             (helpers := reflective_helpers) w).
Proof.
  intros w. split; [compute_done|].
  refine (proj1 (unique_ids_distinct (api_ops := recording_api)
                   (helpers := reflective_helpers) w _)).
  change (set_Forall (λ vin, is_VIN vin = true)
            (dom (data_get (coordinator_data w) "vehicles"))).
  compute_done.
Defined.

(** The form of the keys matters.  Under the keys ["V"] and ["V_vehicle"],
    which are not VINs, and with a vehicle field [climate] discovered by
    reflection, the climate entity of the second and the discovered sensor
    [vehicle]/[climate] of the first both get the id ["V_vehicle_climate"]. *)
Lemma colliding_unique_ids :
  let w := world0 (ok_client PyNone) colliding_snapshot in
  dom (data_get (coordinator_data w) "vehicles") = {[ "V"; "V_vehicle" ]}
  ∧ is_VIN "V" = false ∧ is_VIN "V_vehicle" = false
  ∧ "V_vehicle_climate"
      ∈ (climate.BydClimate._attr_unique_id <$>
           climate.async_setup_entry (helpers := reflective_helpers) w)
  ∧ "V_vehicle_climate"
      ∈ (sensor_unique_id <$>
           sensor.async_setup_entry (helpers := reflective_helpers) w)
  ∧ ¬ NoDup (unique_ids (api_ops := recording_api)
               (helpers := reflective_helpers) w).
Proof.
  intros w. split_and!; [compute_done..].
Qed.

(* ===================================================================== *)
(** ** Further properties of the climate entity *)
(* ===================================================================== *)

Section ClimateMore.
Context {Api : Type} {api_ops : BydApi Api} {helpers : CoordinatorHelpers}.

Lemma assumed_state_run (self : climate.BydClimate.t) (w : World Api) :
  climate.BydClimate.assumed_state (self, w)
  = (Return (match hvac_status_of self w with None => true | Some _ => false end),
     (self, w)).
Proof.
  unfold climate.BydClimate.assumed_state, mbind, M_bind.
  rewrite _get_hvac_status_run. reflexivity.
Qed.

(** X1.  [assumed_state] is [True] exactly when the snapshot holds no
    [HvacStatus] under the entity's VIN; an object of another class stored
    there counts as none.  When it is [True], [hvac_mode] is the remembered
    [_last_mode]; when it is [False], [hvac_mode] is read from the status
    and the remembered mode plays no part. *)
Theorem assumed_state_iff_mode_remembered
    (self : climate.BydClimate.t) (w : World Api) :
  ∃ b,
    climate.BydClimate.assumed_state (self, w) = (Return b, (self, w))
    ∧ (b = true ↔ hvac_status_of self w = None)
    ∧ (b = true →
       fst (climate.BydClimate.hvac_mode (self, w))
       = Return (climate.BydClimate._last_mode self))
    ∧ (b = false →
       ∃ h, data_get (data_of w (climate.BydClimate.coordinator self)) "hvac"
              !! climate.BydClimate._vin self = Some (ObjHvac h)
            ∧ fst (climate.BydClimate.hvac_mode (self, w))
              = Return (if is_ac_on h then HEAT_COOL else OFF))
    ∧ (∀ attrs,
         data_get (data_of w (climate.BydClimate.coordinator self)) "hvac"
           !! climate.BydClimate._vin self = Some (ObjData attrs) →
         b = true).
Proof.
  rewrite hvac_mode_run. unfold climate.BydClimate.assumed_state.
  unfold mbind, M_bind. rewrite _get_hvac_status_run.
  unfold hvac_status_of, mret, M_ret.
  destruct (data_get _ _ !! _) as [[|h|attrs]|] eqn:Hlook; simpl;
    eexists; (split; [reflexivity|]); split_and!;
    try done; try (intros; discriminate); eauto.
Qed.

Lemma realtime_temperature_not_sentinel
    (s : St Api climate.BydClimate.t) (r : PyVal) :
  fst (climate.BydClimate.realtime_temperature s) = Return r →
  py_ne_int r (-129) = true.
Proof.
  destruct s as [self w]. unfold climate.BydClimate.realtime_temperature.
  unfold mbind, M_bind, mret, M_ret, get_self, get_world. simpl.
  repeat case_match; simpl; intros [= <-]; try reflexivity.
  match goal with H : _ && _ = true |- _ => by apply andb_true_iff in H as [_ ?] end.
Qed.

(** X2.  [current_temperature] never hands on the sentinel [-129] from the
    realtime data: a result equal to [-129] can only be the [temp_in_car] of
    an HVAC status that declares the interior temperature available. *)
Theorem current_temperature_sentinel_only_from_hvac
    (self : climate.BydClimate.t) (w : World Api) (r : PyVal) :
  fst (climate.BydClimate.current_temperature (self, w)) = Return r →
  py_ne_int r (-129) = false →
  ∃ h, hvac_status_of self w = Some h
       ∧ interior_temp_available h = true
       ∧ r = option_float (temp_in_car h).
Proof.
  unfold climate.BydClimate.current_temperature, hvac_status_of.
  unfold mbind at 1, M_bind at 1. rewrite _get_hvac_status_run.
  destruct (as_HvacStatus _) as [h|]; [destruct (interior_temp_available h) eqn:Hav|].
  - intros [= <-] _. eauto.
  - intros Hr%realtime_temperature_not_sentinel Hs. congruence.
  - intros Hr%realtime_temperature_not_sentinel Hs. congruence.
Qed.

(** X3.  [async_set_hvac_mode] and [async_turn_on] call
    [async_write_ha_state] exactly once, for the entity itself, when they
    return, and not at all when they raise; [async_turn_off] always calls it
    once. *)
Theorem state_written_exactly_on_success :
  (∀ (self : climate.BydClimate.t) (w : World Api) (mode : HVACMode),
     let r := climate.BydClimate.async_set_hvac_mode mode (self, w) in
     ha_state_writes (snd (snd r))
     = match fst r with
       | Return _ =>
           ha_state_writes w ++ [climate.BydClimate._attr_unique_id self]
       | Raise _ => ha_state_writes w
       end)
  ∧ (∀ (self : switch.BydMomentarySwitch.t) (w : World Api),
     let r := switch.BydMomentarySwitch.async_turn_on (self, w) in
     ha_state_writes (snd (snd r))
     = match fst r with
       | Return _ =>
           ha_state_writes w ++ [switch.BydMomentarySwitch._attr_unique_id self]
       | Raise _ => ha_state_writes w
       end)
  ∧ (∀ (self : switch.BydMomentarySwitch.t) (w : World Api),
     ha_state_writes
       (snd (snd (switch.BydMomentarySwitch.async_turn_off (self, w))))
     = ha_state_writes w ++ [switch.BydMomentarySwitch._attr_unique_id self]).
Proof.
  split_and!.
  - intros self w mode. cbv zeta. rewrite async_set_hvac_mode_run. cbv zeta.
    destruct (async_call _ _ _ _) as [[v|e] a]; [reflexivity|].
    destruct (exc_is_Exception e); reflexivity.
  - intros self w. cbv zeta. rewrite async_turn_on_run. cbv zeta.
    destruct (async_call _ _ _ _) as [[v|e] a]; [reflexivity|].
    destruct (exc_is_Exception e); reflexivity.
  - reflexivity.
Qed.

End ClimateMore.

Section ClimateCommandsAndReads.
Context {Api : Type} {api_ops : BydApi Api} {helpers : CoordinatorHelpers}.

Lemma hvac_status_after_command (self : climate.BydClimate.t) (w : World Api)
    (mode : HVACMode) :
  let s' := snd (climate.BydClimate.async_set_hvac_mode mode (self, w)) in
  hvac_status_of (fst s') (snd s') = hvac_status_of self w.
Proof.
  cbv zeta. rewrite async_set_hvac_mode_run. cbv zeta.
  destruct (async_call _ _ _ _) as [[v|e] a];
    [|destruct (exc_is_Exception e)]; reflexivity.
Qed.

(** X5.  After [async_set_hvac_mode mode] has returned, [hvac_mode] shows
    the commanded mode as long as the snapshot has no HVAC status for the
    VIN; when a status is there, [hvac_mode] keeps following the status,
    whatever was commanded.  After a command that raised, [hvac_mode] is
    what it was before the command. *)
Theorem commanded_mode_shown_until_status_arrives
    (self : climate.BydClimate.t) (w : World Api) (mode : HVACMode) :
  let r := climate.BydClimate.async_set_hvac_mode mode (self, w) in
  (fst r = Return tt → hvac_status_of self w = None →
   fst (climate.BydClimate.hvac_mode (snd r)) = Return mode)
  ∧ (∀ h, hvac_status_of self w = Some h →
     fst (climate.BydClimate.hvac_mode (snd r))
     = Return (if is_ac_on h then HEAT_COOL else OFF))
  ∧ (∀ e, fst r = Raise e →
     fst (climate.BydClimate.hvac_mode (snd r))
     = fst (climate.BydClimate.hvac_mode (self, w))).
Proof.
  cbv zeta.
  pose proof (hvac_status_after_command self w mode) as Hst. cbv zeta in Hst.
  destruct (climate.BydClimate.async_set_hvac_mode mode (self, w))
    as [out [self' w']] eqn:Hrun.
  simpl in *. rewrite !hvac_mode_run. unfold hvac_status_of in *.
  rewrite Hst. split_and!.
  - intros -> Hnone. rewrite Hnone.
    rewrite async_set_hvac_mode_run in Hrun. cbv zeta in Hrun.
    destruct (async_call _ _ _ _) as [[v|e] a];
      [|destruct (exc_is_Exception e)]; by simplify_eq.
  - intros h Hh. by rewrite Hh.
  - intros e ->. clear Hst. destruct (as_HvacStatus _); [done|].
    rewrite async_set_hvac_mode_run in Hrun. cbv zeta in Hrun.
    destruct (async_call _ _ _ _) as [[v|e'] a];
      [|destruct (exc_is_Exception e')]; by simplify_eq.
Qed.

(** X6.  Two commands in a row make two remote calls, in order;
    [_last_command] names the second, and [_last_mode] is the mode of the
    latest command that returned (the mode before both when neither did). *)
Theorem two_commands_in_a_row
    (self : climate.BydClimate.t) (w : World Api) (mode1 mode2 : HVACMode) :
  let r1 := climate.BydClimate.async_set_hvac_mode mode1 (self, w) in
  let r2 := climate.BydClimate.async_set_hvac_mode mode2 (snd r1) in
  api_calls (snd (snd r2))
  = api_calls w ++
    [ (climate.BydClimate._vin self, climate.BydClimate.command_of mode1);
      (climate.BydClimate._vin self, climate.BydClimate.command_of mode2) ]
  ∧ climate.BydClimate._last_command (fst (snd r2))
    = Some (climate.BydClimate.command_of mode2)
  ∧ climate.BydClimate._last_mode (fst (snd r2))
    = match fst r2, fst r1 with
      | Return _, _ => mode2
      | Raise _, Return _ => mode1
      | Raise _, Raise _ => climate.BydClimate._last_mode self
      end.
Proof.
  cbv zeta. rewrite (async_set_hvac_mode_run self w mode1). cbv zeta.
  destruct (async_call (api w) _ _ _) as [[v1|e1] a1];
    [|destruct (exc_is_Exception e1)];
    cbn [fst snd]; rewrite async_set_hvac_mode_run; cbv zeta; simpl;
    destruct (async_call _ _ _ _) as [[v2|e2] a2];
    try destruct (exc_is_Exception e2); simpl;
    rewrite <- ?(assoc_L (++)); split_and!; reflexivity.
Qed.

Lemma climate_attributes_run (self : climate.BydClimate.t) (w : World Api) :
  ∃ attrs,
    climate.BydClimate.extra_state_attributes (self, w)
    = (Return attrs, (self, w))
    ∧ attrs !! "vin" = Some (PyStr (climate.BydClimate._vin self))
    ∧ (∀ k, k ∈ hvac_attribute_keys →
         is_Some (attrs !! k) ↔ is_Some (hvac_status_of self w))
    ∧ attrs !! "last_remote_command"
      = match climate.BydClimate._last_command self with
        | Some command =>
            if String.eqb command "" then None else Some (PyStr command)
        | None => None
        end
    ∧ (is_Some (attrs !! "last_remote_result") →
       is_Some (attrs !! "last_remote_command")).
Proof.
  unfold climate.BydClimate.extra_state_attributes,
    climate.BydClimate._get_hvac_status, hvac_status_of, hvac_attribute_keys.
  unfold mbind, M_bind, mret, M_ret, get_self, get_world. simpl.
  destruct (as_HvacStatus _) as [h|];
    destruct (climate.BydClimate._last_command self) as [command|];
    try destruct (String.eqb command "") eqn:Hc; simpl;
    try destruct (truthy _); simpl;
    eexists; (split; [reflexivity|]); split_and!;
    try (by simplify_map_eq);
    try (intros k Hk;
         repeat (apply elem_of_cons in Hk as [->|Hk]);
         [..|by apply elem_of_nil in Hk];
         simplify_map_eq; split; intros [? ?]; by eauto);
    try (intros [? Hr]; by simplify_map_eq).
Qed.

(** X7.  The attributes of the climate entity always carry the VIN; they
    carry the seven HVAC keys exactly when [assumed_state] is [False];
    ["last_remote_command"] is the non-empty [_last_command]; and
    ["last_remote_result"] never appears without ["last_remote_command"]. *)
Theorem climate_attributes_keys (self : climate.BydClimate.t) (w : World Api) :
  ∃ attrs b,
    fst (climate.BydClimate.extra_state_attributes (self, w)) = Return attrs
    ∧ fst (climate.BydClimate.assumed_state (self, w)) = Return b
    ∧ attrs !! "vin" = Some (PyStr (climate.BydClimate._vin self))
    ∧ (∀ k, k ∈ hvac_attribute_keys → is_Some (attrs !! k) ↔ b = false)
    ∧ attrs !! "last_remote_command"
      = match climate.BydClimate._last_command self with
        | Some command =>
            if String.eqb command "" then None else Some (PyStr command)
        | None => None
        end
    ∧ (is_Some (attrs !! "last_remote_result") →
       is_Some (attrs !! "last_remote_command")).
Proof.
  destruct (climate_attributes_run self w)
    as (attrs & Hrun & Hvin & Hkeys & Hcmd & Hres).
  eexists attrs, _. rewrite Hrun, assumed_state_run.
  split_and!; try done.
  intros k Hk. rewrite (Hkeys k Hk).
  destruct (hvac_status_of self w) as [h|].
  - split; [done | eauto].
  - split; [intros [? ?]; done | done].
Qed.

(** X8.  A climate entity built by [async_setup_entry] starts with mode
    [OFF] and no command, reads from the main coordinator and carries the
    vehicle object stored under its VIN; whatever the API wrapper holds, its
    attributes show neither ["last_remote_command"] nor
    ["last_remote_result"] until a command is issued. *)
Theorem fresh_climate_entity (w : World Api) (c : climate.BydClimate.t) :
  c ∈ climate.async_setup_entry w →
  climate.BydClimate._last_mode c = OFF
  ∧ climate.BydClimate._last_command c = None
  ∧ climate.BydClimate.coordinator c = MainCoordinator
  ∧ data_get (coordinator_data w) "vehicles" !! climate.BydClimate._vin c
    = Some (climate.BydClimate._vehicle c)
  ∧ ∀ w' : World Api,
      ∃ attrs,
        fst (climate.BydClimate.extra_state_attributes (c, w')) = Return attrs
        ∧ attrs !! "last_remote_command" = None
        ∧ attrs !! "last_remote_result" = None.
Proof.
  unfold climate.async_setup_entry.
  intros ([vin vehicle] & Hin & Hv%elem_of_map_to_list)%list_elem_of_bind.
  apply list_elem_of_singleton in Hin as ->. split_and!; try done.
  intros w'.
  destruct (climate_attributes_run
              (climate.BydClimate.__init__ MainCoordinator vin vehicle) w')
    as (attrs & Hrun & _ & _ & Hcmd & Hres).
  exists attrs. rewrite Hrun. split_and!; [done|done|].
  simpl in Hcmd. destruct (attrs !! "last_remote_result") eqn:Hr; [|done].
  destruct Hres as [? Hc]; [by eauto|]. congruence.
Qed.

End ClimateCommandsAndReads.

(* ===================================================================== *)
(** ** Further properties of the switch, the names and [device_info] *)
(* ===================================================================== *)

Section SwitchMore.
Context {Api : Type} {api_ops : BydApi Api} {helpers : CoordinatorHelpers}.

(** X9.  When the client has no method named like the switch's command and
    the API wrapper hands back what the callback did, [async_turn_on] raises
    [HomeAssistantError] with the message ["Unknown command: <command>"]
    (the callback's own error as its cause), writes no state and leaves the
    switch unchanged. *)
Theorem unknown_command_is_reported
    (self : switch.BydMomentarySwitch.t) (w : World Api)
    (client : Client) (a : Api) :
  client_getattr client (switch.BydMomentarySwitch._command self) = None →
  async_call (api w) (switch.BydMomentarySwitch._call self)
    (switch.BydMomentarySwitch._vin self)
    (switch.BydMomentarySwitch._command self)
  = (switch.BydMomentarySwitch._call self client, a) →
  let msg := "Unknown command: " +:+ switch.BydMomentarySwitch._command self in
  let r := switch.BydMomentarySwitch.async_turn_on (self, w) in
  fst r = Raise (HomeAssistantError msg (Some (HomeAssistantError msg None)))
  ∧ fst (snd r) = self
  ∧ ha_state_writes (snd (snd r)) = ha_state_writes w.
Proof.
  intros Hnone Hcall. cbv zeta. rewrite async_turn_on_run. cbv zeta.
  rewrite Hcall. unfold switch.BydMomentarySwitch._call. rewrite Hnone.
  simpl. split_and!; reflexivity.
Qed.

End SwitchMore.

Section Names.
Context {helpers : CoordinatorHelpers}.

Lemma replace_underscores_app (s1 s2 : string) :
  replace_underscores (s1 +:+ s2)
  = replace_underscores s1 +:+ replace_underscores s2.
Proof.
  induction s1 as [|c s1 IH]; [done|].
  rewrite append_cons. simpl. rewrite IH. by rewrite append_cons.
Qed.

Lemma replace_underscores_no_underscore (s : string) :
  has_char "_" (replace_underscores s) = false.
Proof.
  induction s as [|c s IH]; [done|].
  cbn [replace_underscores has_char]. rewrite IH, orb_false_r.
  destruct (Ascii.eqb c "_") eqn:Hc; [reflexivity|].
  rewrite Ascii.eqb_sym. exact Hc.
Qed.

Lemma replace_underscores_length (s : string) :
  String.length (replace_underscores s) = String.length s.
Proof. induction s as [|c s IH]; simpl; congruence. Qed.

Lemma replace_underscores_id (s : string) :
  has_char "_" s = false → replace_underscores s = s.
Proof.
  induction s as [|c s IH]; [done|]. cbn [replace_underscores has_char].
  intros [Hc Hs]%orb_false_iff. rewrite (IH Hs).
  rewrite Ascii.eqb_sym, Hc. done.
Qed.

(** X10.  The display names of switches and sensors never contain an
    underscore, also when the vehicle's display name, the command, the
    category or the field has one: every underscore of the composed name
    becomes a space and nothing else changes (the length is kept, and a part
    without underscore is kept as it is).  The climate entity's name is the
    display name followed by [" climate"], unchanged. *)
Theorem entity_names_have_no_underscore (coord : CoordRef) (vin : string)
    (vehicle : PyObj) :
  let display := get_vehicle_display vehicle in
  (∀ command,
     let n := switch.BydMomentarySwitch._attr_name
                (switch.BydMomentarySwitch.__init__ coord vin vehicle command) in
     has_char "_" n = false
     ∧ n = replace_underscores display +:+ " " +:+ replace_underscores command
     ∧ String.length n = String.length (display +:+ " " +:+ command))
  ∧ (∀ description,
     let n := sensor.BydTelemetrySensor._attr_name
                (sensor.BydTelemetrySensor.__init__ coord vin vehicle
                   description) in
     has_char "_" n = false
     ∧ n = replace_underscores display +:+ " " +:+
           replace_underscores (sensor.name description))
  ∧ (∀ category field src,
     let n := sensor.BydMetricSensor._attr_name
                (sensor.BydMetricSensor.__init__ coord vin vehicle category
                   field src) in
     has_char "_" n = false
     ∧ n = replace_underscores display +:+ " " +:+
           replace_underscores category +:+ " " +:+
           replace_underscores field)
  ∧ (∀ s, has_char "_" s = false → replace_underscores s = s)
  ∧ climate.BydClimate._attr_name
      (climate.BydClimate.__init__ coord vin vehicle)
    = display +:+ " climate".
Proof.
  cbv zeta. split_and!.
  - intros command. simpl. split_and!.
    + apply replace_underscores_no_underscore.
    + by rewrite !replace_underscores_app.
    + apply replace_underscores_length.
  - intros description. simpl. split.
    + apply replace_underscores_no_underscore.
    + by rewrite !replace_underscores_app.
  - intros category field src. simpl. split.
    + apply replace_underscores_no_underscore.
    + by rewrite !replace_underscores_app.
  - apply replace_underscores_id.
  - reflexivity.
Qed.

(** X11.  [device_info], the same for the four entity classes, depends only
    on the VIN and the vehicle object, so all entities of a vehicle name the
    same device.  When it returns, the identifiers are the single pair of
    the domain and the VIN, the manufacturer is the vehicle's brand name or,
    when that is [None] or empty, ["BYD"] and so never falsy, and the model
    is the model name or [None], never an empty value. *)
Theorem device_info_of_vehicle (DOMAIN vin : string) (vehicle : PyObj)
    (d : DeviceInfo.t) :
  device_info_of DOMAIN vin vehicle = Return d →
  DeviceInfo.identifiers d = {[ (DOMAIN, vin) ]}
  ∧ DeviceInfo.name d = get_vehicle_display vehicle
  ∧ truthy (DeviceInfo.manufacturer d) = true
  ∧ (∃ brand, vehicle_getattr vehicle "brand_name" = Return brand
              ∧ DeviceInfo.manufacturer d
                = if truthy brand then brand else PyStr "BYD")
  ∧ (∃ model_name, vehicle_getattr vehicle "model_name" = Return model_name
                   ∧ DeviceInfo.model d
                     = if truthy model_name then model_name else PyNone)
  ∧ (DeviceInfo.model d = PyNone ∨ truthy (DeviceInfo.model d) = true).
Proof.
  unfold device_info_of, py_or.
  destruct (vehicle_getattr vehicle "brand_name") as [brand|e]; [|done].
  destruct (vehicle_getattr vehicle "model_name") as [model_name|e]; [|done].
  intros [= <-]. simpl. split_and!; try done; eauto.
  - by destruct (truthy brand) eqn:Hb.
  - destruct (truthy model_name) eqn:Hm; eauto.
Qed.

(** X13.  [device_info] raises, and then an [AttributeError], exactly when
    the vehicle object lacks [brand_name] or [model_name]; a vehicle of
    [None] is such an object. *)
Theorem device_info_raises_iff (DOMAIN vin : string) (vehicle : PyObj) :
  ((∃ e, device_info_of DOMAIN vin vehicle = Raise e)
   ↔ ¬ ∃ attrs brand model_name,
         vehicle = ObjData attrs
         ∧ attrs !! "brand_name" = Some brand
         ∧ attrs !! "model_name" = Some model_name)
  ∧ (∀ e, device_info_of DOMAIN vin vehicle = Raise e →
          exc_class e = "AttributeError")
  ∧ (∃ e, device_info_of DOMAIN vin ObjNone = Raise e).
Proof.
  unfold device_info_of, vehicle_getattr. split_and!.
  - split.
    + intros [e He] (attrs & brand & model_name & -> & Hb & Hm).
      rewrite Hb, Hm in He. discriminate.
    + intros Hno. destruct vehicle as [|h|attrs]; eauto.
      destruct (attrs !! "brand_name") as [brand|] eqn:Hb; eauto.
      destruct (attrs !! "model_name") as [model_name|] eqn:Hm; eauto.
      exfalso. apply Hno. eauto 10.
  - intros e. destruct vehicle as [|h|attrs]; try (by intros [= <-]).
    destruct (attrs !! "brand_name"); [|by intros [= <-]].
    destruct (attrs !! "model_name"); [done|by intros [= <-]].
  - eauto.
Qed.

End Names.

(* ===================================================================== *)
(** ** Further properties of setup and of the sensors *)
(* ===================================================================== *)

Section SetupMore.
Context {Api : Type} {api_ops : BydApi Api} {helpers : CoordinatorHelpers}.

Lemma explicit_sources_not_gps :
  Forall (λ d, sensor.active_coordinator (sensor.source_key d) = MainCoordinator)
    sensor.EXPLICIT_SENSORS.
Proof. repeat constructor. Qed.

Lemma metric_sources_categories (w : World Api)
    (category src : string) (source : gmap string PyObj) :
  (category, src, source)
    ∈ sensor.metric_sources w (data_get (coordinator_data w) "vehicles") →
  category = src
  ∧ sensor.active_coordinator src = MainCoordinator
  ∧ source = sensor.source_of (coordinator_data w) src.
Proof.
  unfold sensor.metric_sources. intros Hin.
  repeat (apply elem_of_cons in Hin as [[= -> -> ->]|Hin]);
    [done..|by apply elem_of_nil in Hin].
Qed.

(** X14.  Every entity that setup builds reads from the main coordinator:
    no explicit description and none of the five sources has the source key
    ["gps"], so the GPS coordinator is never handed to a sensor; and each
    discovered sensor has its category equal to its source key. *)
Theorem setup_never_uses_gps_coordinator (w : World Api) :
  Forall (λ c, climate.BydClimate.coordinator c = MainCoordinator)
    (climate.async_setup_entry w)
  ∧ Forall (λ s, switch.BydMomentarySwitch.coordinator s = MainCoordinator)
      (switch.async_setup_entry w)
  ∧ Forall (λ e, sensor_coordinator e = MainCoordinator)
      (sensor.async_setup_entry w)
  ∧ Forall (λ e, match e with
                 | sensor.Metric m =>
                     sensor.BydMetricSensor._category m
                     = sensor.BydMetricSensor._source_key m
                 | sensor.Telemetry t =>
                     sensor.category (sensor.BydTelemetrySensor.entity_description t)
                     = sensor.source_key
                         (sensor.BydTelemetrySensor.entity_description t)
                 end)
      (sensor.async_setup_entry w).
Proof.
  split_and!; apply Forall_forall.
  - unfold climate.async_setup_entry.
    intros c ([vin vehicle] & Hin & _)%list_elem_of_bind.
    by apply list_elem_of_singleton in Hin as ->.
  - unfold switch.async_setup_entry.
    intros s ([vin vehicle] & Hin & _)%list_elem_of_bind.
    repeat (apply elem_of_cons in Hin as [->|Hin]); try done.
    by apply elem_of_nil in Hin.
  - intros e (vin & vehicle & _ & [Hin|(category & src & source & Hsrc & Hin)])
      %elem_of_sensor_setup.
    + unfold sensor.explicit_entities in Hin.
      apply list_elem_of_bind in Hin as (desc & Hin & Hdesc).
      apply list_elem_of_singleton in Hin as ->. simpl.
      by apply (proj1 (Forall_forall _ _) explicit_sources_not_gps).
    + apply elem_of_metric_entities in Hin as (field & -> & _). simpl.
      by apply metric_sources_categories in Hsrc as (_ & Hc & _).
  - intros e (vin & vehicle & _ & [Hin|(category & src & source & Hsrc & Hin)])
      %elem_of_sensor_setup.
    + unfold sensor.explicit_entities in Hin.
      apply list_elem_of_bind in Hin as (desc & Hin & Hdesc).
      apply list_elem_of_singleton in Hin as ->. simpl.
      revert desc Hdesc. apply Forall_forall. repeat constructor.
    + apply elem_of_metric_entities in Hin as (field & -> & _). simpl.
      by apply metric_sources_categories in Hsrc as (Hc & _ & _).
Qed.

End SetupMore.

Section SensorsMore.
Context {Api : Type} {api_ops : BydApi Api} {helpers : CoordinatorHelpers}.

(** X15.  A discovered sensor can be read in the snapshot it was discovered
    from: for every [BydMetricSensor] that setup builds, the source mapping
    that [native_value] selects by the sensor's source key holds the
    sensor's field for its VIN, and [native_value] returns that value. *)
Theorem discovered_sensor_reads_its_field (w : World Api)
    (m : sensor.BydMetricSensor.t) :
  sensor.Metric m ∈ sensor.async_setup_entry w →
  ∃ v,
    sensor.metrics_of
      (sensor.source_of (coordinator_data w) (sensor.BydMetricSensor._source_key m))
      (sensor.BydMetricSensor._vin m)
      !! sensor.BydMetricSensor._field m = Some v
    ∧ sensor.BydMetricSensor.native_value (m, w) = (Return v, (m, w)).
Proof.
  intros (vin & vehicle & _ & [Hin|(category & src & source & Hsrc & Hin)])
    %elem_of_sensor_setup.
  - unfold sensor.explicit_entities in Hin.
    apply list_elem_of_bind in Hin as (desc & Hin & _).
    apply list_elem_of_singleton in Hin. discriminate.
  - apply elem_of_metric_entities in Hin as (field & [= ->] & Hdom & _).
    apply metric_sources_categories in Hsrc as (_ & Hmain & ->).
    apply elem_of_dom in Hdom as [v Hv]. exists v. split; [exact Hv|].
    unfold sensor.BydMetricSensor.native_value.
    unfold mbind, M_bind, mret, M_ret, get_self, get_world. simpl.
    rewrite Hmain. simpl. by rewrite Hv.
Qed.

(** X16.  A status of [None] under the VIN is treated like a missing VIN,
    whatever [expand_metrics] and [extract_raw] would make of [None]: both
    sensor classes read [None], the discovered sensor shows no ["raw"]
    attribute, and setup discovers no sensor for that VIN in that source. *)
Theorem none_status_is_no_status (w : World Api)
    (t : sensor.BydTelemetrySensor.t) (m : sensor.BydMetricSensor.t)
    (vin : string) (vehicle : PyObj) (category src : string)
    (source : gmap string PyObj) :
  (sensor.source_of (data_of w (sensor.BydTelemetrySensor.coordinator t))
     (sensor.source_key (sensor.BydTelemetrySensor.entity_description t))
     !! sensor.BydTelemetrySensor._vin t = Some ObjNone →
   fst (sensor.BydTelemetrySensor.native_value (t, w)) = Return PyNone)
  ∧ (sensor.source_of (data_of w (sensor.BydMetricSensor.coordinator m))
       (sensor.BydMetricSensor._source_key m)
       !! sensor.BydMetricSensor._vin m = Some ObjNone →
     fst (sensor.BydMetricSensor.native_value (m, w)) = Return PyNone
     ∧ ∃ attrs,
         fst (sensor.BydMetricSensor.extra_state_attributes (m, w))
         = Return attrs
         ∧ attrs !! "raw" = None)
  ∧ (source !! vin = Some ObjNone →
     sensor.metric_entities vin vehicle category src source = []).
Proof.
  split_and!.
  - intros Hnone. unfold sensor.BydTelemetrySensor.native_value.
    unfold mbind, M_bind, mret, M_ret, get_self, get_world. simpl.
    unfold sensor.metrics_of. rewrite Hnone. reflexivity.
  - intros Hnone. split.
    + unfold sensor.BydMetricSensor.native_value.
      unfold mbind, M_bind, mret, M_ret, get_self, get_world. simpl.
      unfold sensor.metrics_of. rewrite Hnone. reflexivity.
    + unfold sensor.BydMetricSensor.extra_state_attributes.
      unfold mbind, M_bind, mret, M_ret, get_self, get_world. simpl.
      unfold sensor.raw_of. rewrite Hnone. simpl.
      eexists. split; [reflexivity|]. by simplify_map_eq.
  - intros Hnone. unfold sensor.metric_entities, sensor.metrics_of.
    rewrite Hnone. simpl. by rewrite map_to_list_empty.
Qed.

Lemma length_bind_const {A B} (f : A → list B) (l : list A) (n : nat) :
  (∀ x, length (f x) = n) → length (l ≫= f) = n * length l.
Proof.
  intros Hf. induction l as [|x l IH]; [simpl; lia|].
  rewrite bind_cons, length_app, Hf, IH. simpl. lia.
Qed.

Lemma filter_bind_list {A B} (P : B → Prop) `{!∀ y, Decision (P y)}
    (f : A → list B) (l : list A) :
  filter P (l ≫= f) = l ≫= (λ x, filter P (f x)).
Proof.
  induction l as [|x l IH]; [done|].
  by rewrite !bind_cons, filter_app, IH.
Qed.

Lemma filter_telemetry_metric_entities (vin : string) (vehicle : PyObj)
    (category src : string) (source : gmap string PyObj) :
  filter (λ e, is_telemetry e = true)
    (sensor.metric_entities vin vehicle category src source) = [].
Proof.
  unfold sensor.metric_entities.
  induction ((map_to_list (sensor.metrics_of source vin)).*1) as [|f fs IH];
    [done|].
  rewrite bind_cons, filter_app, IH, app_nil_r.
  case_decide; [done|]. rewrite filter_cons, decide_False; done.
Qed.

Lemma filter_telemetry_one_vehicle (w : World Api) (vin : string)
    (vehicle : PyObj) :
  length
    (filter (λ e, is_telemetry e = true)
       (sensor.explicit_entities vin vehicle ++
        ('(category, src, source) ←
           sensor.metric_sources w (data_get (coordinator_data w) "vehicles");
         sensor.metric_entities vin vehicle category src source)))
  = 18.
Proof.
  rewrite filter_app, length_app, filter_bind_list.
  unfold sensor.metric_sources.
  rewrite !bind_cons, bind_nil_list, !filter_telemetry_metric_entities.
  reflexivity.
Qed.

(** X17.  One setup pass builds one climate entity, four switches and
    eighteen explicit sensors per vehicle of the ["vehicles"] mapping, and
    nothing at all when the snapshot has no ["vehicles"] key or the mapping
    is empty. *)
Theorem setup_sizes (w : World Api) :
  let n := size (data_get (coordinator_data w) "vehicles") in
  length (climate.async_setup_entry w) = n
  ∧ length (switch.async_setup_entry w) = 4 * n
  ∧ length (filter (λ e, is_telemetry e = true) (sensor.async_setup_entry w))
    = 18 * n
  ∧ (n = 0 →
     climate.async_setup_entry w = []
     ∧ switch.async_setup_entry w = []
     ∧ sensor.async_setup_entry w = [])
  ∧ (coordinator_data w !! "vehicles" = None → n = 0).
Proof.
  cbv zeta. rewrite <- length_map_to_list. split_and!.
  - unfold climate.async_setup_entry.
    rewrite (length_bind_const _ _ 1); [lia|]. by intros [vin vehicle].
  - unfold switch.async_setup_entry.
    rewrite (length_bind_const _ _ 4); [lia|]. by intros [vin vehicle].
  - unfold sensor.async_setup_entry.
    rewrite filter_bind_list, (length_bind_const _ _ 18); [lia|].
    intros [vin vehicle]. apply filter_telemetry_one_vehicle.
  - intros Hn%length_zero_iff_nil.
    unfold climate.async_setup_entry, switch.async_setup_entry,
      sensor.async_setup_entry.
    by rewrite Hn.
  - intros Hnone. unfold data_get. rewrite Hnone. simpl.
    by rewrite map_to_list_empty.
Qed.

End SensorsMore.

(* ===================================================================== *)
(** ** Further examples on concrete inputs *)
(* ===================================================================== *)

(** Without any snapshot the state is assumed and the mode is the
    remembered one. *)
Lemma assumed_state_iff_mode_remembered_witness :
  fst (climate.BydClimate.hvac_mode
         (example_climate, world0 (ok_client PyNone) ∅))
  = Return (climate.BydClimate._last_mode example_climate).
Proof.
  destruct (assumed_state_iff_mode_remembered example_climate
              (world0 (ok_client PyNone) ∅))
    as (b & Hb & _ & Htrue & _).
  apply Htrue. by injection Hb as <-.
Defined.

(** An HVAC status that declares the interior temperature available hands
    on its value even when it is the sentinel. *)
Lemma current_temperature_sentinel_only_from_hvac_witness :
  let w := world0 (ok_client PyNone) sentinel_snapshot in
  ∃ h, hvac_status_of example_climate w = Some h
       ∧ interior_temp_available h = true
       ∧ PyFloat (inject_Z (-129)) = option_float (temp_in_car h).
Proof.
  intros w.
  exact (current_temperature_sentinel_only_from_hvac example_climate w
           (PyFloat (inject_Z (-129))) eq_refl eq_refl).
Defined.

(** A successful [start_climate] without HVAC status: the entity shows
    [HEAT_COOL]. *)
Lemma commanded_mode_shown_until_status_arrives_witness :
  fst (climate.BydClimate.hvac_mode
         (snd (climate.BydClimate.async_set_hvac_mode
                 (api_ops := recording_api) HEAT_COOL
                 (example_climate, world0 (ok_client (PyStr "ok")) ∅))))
  = Return HEAT_COOL.
Proof.
  exact (proj1 (commanded_mode_shown_until_status_arrives
                  (api_ops := recording_api) example_climate
                  (world0 (ok_client (PyStr "ok")) ∅) HEAT_COOL)
           eq_refl eq_refl).
Defined.

(** After a successful command the recorded result is shown, and with it
    the command. *)
Lemma climate_attributes_keys_witness :
  let s := snd (climate.BydClimate.async_set_hvac_mode
                  (api_ops := recording_api) HEAT_COOL
                  (example_climate, world0 (ok_client (PyStr "ok")) ∅)) in
  ∃ attrs,
    fst (climate.BydClimate.extra_state_attributes
           (api_ops := recording_api) s) = Return attrs
    ∧ is_Some (attrs !! "last_remote_command").
Proof.
  intros s.
  destruct (climate_attributes_keys (api_ops := recording_api) (fst s) (snd s))
    as (attrs & b & Hrun & _ & _ & _ & _ & Hres).
  exists attrs. split; [exact Hrun|]. apply Hres.
  vm_compute in Hrun. injection Hrun as <-. eexists. vm_compute. reflexivity.
Defined.

(** The climate entity that setup builds for the example vehicle. *)
Lemma fresh_climate_entity_witness :
  climate.BydClimate._last_mode seal_climate = OFF
  ∧ climate.BydClimate._last_command seal_climate = None.
Proof.
  destruct (fresh_climate_entity (api_ops := recording_api)
              (helpers := reflective_helpers)
              (world0 (ok_client PyNone) example_snapshot) seal_climate)
    as (Hmode & Hcmd & _).
  - unfold climate.async_setup_entry. apply list_elem_of_bind.
    exists (example_vin, seal). split; [by left|].
    by apply elem_of_map_to_list.
  - split; [exact Hmode | exact Hcmd].
Defined.

(** A client without methods: the switch reports the unknown command. *)
Lemma unknown_command_is_reported_witness :
  let w := world0 empty_client ∅ in
  fst (switch.BydMomentarySwitch.async_turn_on (api_ops := recording_api)
         (example_switch, w))
  = Raise (HomeAssistantError "Unknown command: flash_lights"
             (Some (HomeAssistantError "Unknown command: flash_lights" None))).
Proof.
  intros w.
  exact (proj1 (unknown_command_is_reported (api_ops := recording_api)
                  example_switch w empty_client (api w) eq_refl eq_refl)).
Defined.

(** A name without underscore is kept. *)
Lemma entity_names_have_no_underscore_witness :
  replace_underscores "Seal flash" = "Seal flash".
Proof.
  destruct (entity_names_have_no_underscore (helpers := reflective_helpers)
              MainCoordinator example_vin example_vehicle)
    as (_ & _ & _ & Hid & _).
  exact (Hid "Seal flash" eq_refl).
Defined.

(** The device of the example vehicle: the brand is kept, the empty model
    name becomes [None]. *)
Lemma device_info_of_vehicle_witness :
  device_info_of (helpers := reflective_helpers)
    "byd_vehicle" example_vin example_vehicle = Return example_device
  ∧ truthy (DeviceInfo.manufacturer example_device) = true
  ∧ (DeviceInfo.model example_device = PyNone
     ∨ truthy (DeviceInfo.model example_device) = true).
Proof.
  destruct (device_info_of_vehicle (helpers := reflective_helpers)
              "byd_vehicle" example_vin example_vehicle example_device eq_refl)
    as (_ & _ & Hman & _ & _ & Hmodel).
  split_and!; [reflexivity | exact Hman | exact Hmodel].
Defined.

(** A vehicle of [None] has no [brand_name]. *)
Lemma device_info_raises_iff_witness :
  exc_class (AttributeError "brand_name") = "AttributeError".
Proof.
  exact (proj1 (proj2 (device_info_raises_iff (helpers := reflective_helpers)
                         "byd_vehicle" example_vin ObjNone))
           (AttributeError "brand_name") eq_refl).
Defined.

(** The discovered [door_lock] sensor reads [1]. *)
Lemma discovered_sensor_reads_its_field_witness :
  let w := world0 (ok_client PyNone) example_snapshot in
  ∃ v,
    sensor.metrics_of (helpers := reflective_helpers)
      (sensor.source_of (coordinator_data w) "realtime") example_vin
      !! "door_lock" = Some v
    ∧ sensor.BydMetricSensor.native_value (helpers := reflective_helpers)
        (door_lock_sensor, w)
      = (Return v, (door_lock_sensor, w)).
Proof.
  intros w.
  apply (discovered_sensor_reads_its_field (helpers := reflective_helpers)
           w door_lock_sensor).
  apply elem_of_sensor_setup. exists example_vin, seal.
  split; [reflexivity|]. right.
  exists "realtime", "realtime", (data_get (coordinator_data w) "realtime").
  split; [unfold sensor.metric_sources; right; left|].
  apply elem_of_metric_entities. exists "door_lock".
  split_and!; [reflexivity | compute_done | compute_done].
Defined.

(** A realtime status of [None]: the explicit speed sensor reads [None]. *)
Lemma none_status_is_no_status_witness :
  fst (sensor.BydTelemetrySensor.native_value (helpers := reflective_helpers)
         (example_telemetry, world0 (ok_client PyNone) none_snapshot))
  = Return PyNone.
Proof.
  exact (proj1 (none_status_is_no_status (helpers := reflective_helpers)
                  (world0 (ok_client PyNone) none_snapshot)
                  example_telemetry door_lock_sensor
                  example_vin seal "realtime" "realtime" ∅)
           eq_refl).
Defined.

(** A snapshot without ["vehicles"]: no vehicle, no entity. *)
Lemma setup_sizes_witness :
  size (data_get (coordinator_data (world0 (ok_client PyNone) ∅)) "vehicles") = 0.
Proof.
  destruct (setup_sizes (helpers := reflective_helpers)
              (world0 (ok_client PyNone) ∅))
    as (_ & _ & _ & _ & Hmissing).
  exact (Hmissing eq_refl).
Defined.

(* ===================================================================== *)
(** ** Offered modes and ids within one vehicle *)
(* ===================================================================== *)

Section ModesAndIds.
Context {Api : Type} {api_ops : BydApi Api} {helpers : CoordinatorHelpers}.

(** X18.  The reported mode stays among the offered modes
    [_attr_hvac_modes] as long as only offered modes are commanded: a new
    entity remembers [OFF]; a command of an offered mode, returning or
    raising, keeps the remembered mode offered; and with an offered
    remembered mode [hvac_mode] is offered, on every snapshot. *)
Theorem hvac_mode_stays_offered :
  (∀ coord vin vehicle,
     climate.BydClimate._last_mode (climate.BydClimate.__init__ coord vin vehicle)
       ∈ _attr_hvac_modes)
  ∧ (∀ (self : climate.BydClimate.t) (w : World Api) (mode : HVACMode),
       climate.BydClimate._last_mode self ∈ _attr_hvac_modes →
       mode ∈ _attr_hvac_modes →
       climate.BydClimate._last_mode
         (fst (snd (climate.BydClimate.async_set_hvac_mode mode (self, w))))
         ∈ _attr_hvac_modes)
  ∧ (∀ (self : climate.BydClimate.t) (w : World Api),
       climate.BydClimate._last_mode self ∈ _attr_hvac_modes →
       ∃ m, fst (climate.BydClimate.hvac_mode (self, w)) = Return m
            ∧ m ∈ _attr_hvac_modes).
Proof.
  unfold _attr_hvac_modes. split_and!.
  - intros coord vin vehicle. simpl. by left.
  - intros self w mode Hlast Hmode. rewrite async_set_hvac_mode_run. cbv zeta.
    destruct (async_call _ _ _ _) as [[v|e] a];
      [|destruct (exc_is_Exception e)]; done.
  - intros self w Hlast. rewrite hvac_mode_run. eexists. split; [done|].
    destruct (as_HvacStatus _) as [h|]; [|done].
    destruct (is_ac_on h);
      [apply list_elem_of_further, list_elem_of_here | apply list_elem_of_here].
Qed.

(** X19.  Within one vehicle the unique ids never collide, whatever the VIN
    looks like: on a snapshot with a single vehicle all entities of a setup
    pass have pairwise distinct unique ids. *)
Theorem unique_ids_distinct_within_vehicle (w : World Api) (vin : string)
    (vehicle : PyObj) :
  data_get (coordinator_data w) "vehicles" = {[ vin := vehicle ]} →
  NoDup (unique_ids w).
Proof.
  intros Hvm. rewrite unique_ids_by_vehicle, Hvm, map_to_list_singleton.
  rewrite bind_singleton, vehicle_ids_rests.
  apply (NoDup_fmap_2 _), NoDup_vehicle_rests.
Qed.

End ModesAndIds.

(** An entity that remembers [HEAT_COOL] and sees a status with the air
    conditioning off reports [OFF], an offered mode. *)
Lemma hvac_mode_stays_offered_witness :
  let self := climate.BydClimate.set_last_mode HEAT_COOL example_climate in
  let w := world0 (ok_client PyNone) sentinel_snapshot in
  ∃ m, fst (climate.BydClimate.hvac_mode (self, w)) = Return m
       ∧ m ∈ _attr_hvac_modes.
Proof.
  intros self w.
  refine (proj2 (proj2 (hvac_mode_stays_offered (api_ops := recording_api)
                          (helpers := reflective_helpers))) self w _).
  apply list_elem_of_further, list_elem_of_here.
Defined.

(** A single vehicle whose VIN has underscores. *)
Lemma unique_ids_distinct_within_vehicle_witness :
  NoDup (unique_ids (api_ops := recording_api) (helpers := reflective_helpers)
           (world0 (ok_client PyNone)
              {[ "vehicles" := {[ "V_vehicle_x" := seal ]} ]})).
Proof.
  exact (unique_ids_distinct_within_vehicle (api_ops := recording_api)
           (helpers := reflective_helpers)
           (world0 (ok_client PyNone)
              {[ "vehicles" := {[ "V_vehicle_x" := seal ]} ]})
           "V_vehicle_x" seal eq_refl).
Defined.
